(** * Hidden-station scenario scripts for ns-3.25

    A shallow embedding of the scratch programs

      - [scratch/simple-ht-hidden-stations.cc] (the two programs of the file),
      - [scratch/hiddenstations2.cc],
      - [scratch/hiddenstations3.cc],

    (hiddenstations.cc shares their first half; its [main] reads a
    variable [serverApp] that is never declared), each of which is a single
    straight-line [main]: it builds a Wi-Fi
    topology out of ns-3 helper objects, installs UDP applications, runs the
    simulator up to a horizon and (in all programs but hiddenstations3.cc)
    goes on to print one throughput line per server application.

    The scripts only call ns-3 helpers; the helpers are embedded as total
    functions.  Every unchecked container access of ns-3.25
    ([NodeContainer::Get], [NetDeviceContainer::Get],
    [Ipv4InterfaceContainer::GetAddress], [ApplicationContainer::Get] all
    index a [std::vector] with [operator[]]) returns an [option].  A call
    that works through a handle which is not there has no defined behaviour
    in C++.  While a scenario is built these calls are [GetAddress] past
    the end of the container, [Install] on a missing node and [EnablePcap]
    on a missing device; they are recorded, in program order, in the
    [faults] of the state.  A build is elaborated to its last line all the
    same, so that what every line of a script declares can be stated; but
    once a fault is recorded [main] hands nothing to the simulator, prints
    nothing and does not return.  After the run the call is [GetReceived]
    through a null cast: it ends [main] in the reporting block where it
    happens. *)

From Stdlib Require Import ZArith Lia.
From Stdlib Require Import Floats.SpecFloat.
From stdpp Require Import base numbers list strings gmap.

Local Open Scope Z_scope.

(** ** Fixed-width unsigned arithmetic ([uint32_t], [uint64_t]) *)

Module Uint.

Definition wrap (w z : Z) : Z := z mod 2 ^ w.

Definition in_range (w z : Z) : Prop := 0 <= z < 2 ^ w.

Definition add32 (a b : Z) : Z := wrap 32 (a + b).
Definition mul32 (a b : Z) : Z := wrap 32 (a * b).
Definition add64 (a b : Z) : Z := wrap 64 (a + b).

End Uint.

(** ** IEEE 754 binary64 ([double]) *)

Module Double.

Definition prec : Z := 53.
Definition emax : Z := 1024.

Definition t : Type := spec_float.

(** Conversion of an integer to [double], rounding to nearest even. *)
Definition of_Z (z : Z) : t := binary_normalize prec emax z 0 false.

Definition add : t -> t -> t := SFadd prec emax.
Definition sub : t -> t -> t := SFsub prec emax.
Definition mul : t -> t -> t := SFmul prec emax.
Definition div : t -> t -> t := SFdiv prec emax.
Definition sqrt : t -> t := SFsqrt prec emax.
Definition ltb : t -> t -> bool := SFltb.
Definition leb : t -> t -> bool := SFleb.

End Double.

(** ** The ns-3 objects the scripts manipulate *)

Module Ns3.

(** [Time] is a count of nanoseconds ([Time::SetResolution (Time::NS)]). *)
Definition Time : Type := Z.
Definition Seconds (s : Z) : Time := s * 1000000000.
Definition MicroSeconds (us : Z) : Time := us * 1000.
Definition NanoSeconds (ns : Z) : Time := ns.

(** An [Ipv4Address] is its 32-bit value. *)
Definition Ipv4Address : Type := Z.
Definition ipv4 (a b c d : Z) : Ipv4Address := ((a * 256 + b) * 256 + c) * 256 + d.

Record Vector : Type := mkVector { vx : Double.t; vy : Double.t; vz : Double.t }.

(** [CalculateDistance] of ns-3's [Vector3D]: the square root of the sum of
    the squared coordinate differences, all in [double]. *)
Definition CalculateDistance (a b : Vector) : Double.t :=
  let dx := Double.sub (vx b) (vx a) in
  let dy := Double.sub (vy b) (vy a) in
  let dz := Double.sub (vz b) (vz a) in
  Double.sqrt (Double.add (Double.add (Double.mul dx dx) (Double.mul dy dy))
                          (Double.mul dz dz)).

Inductive AttributeValue : Type :=
| UintegerValue (n : Z)
| StringValue (s : string)
| DoubleValue (d : Double.t)
| BooleanValue (b : bool)
| TimeValue (t : Time)
| SsidValue (s : string)
| AddressValue (a : option Ipv4Address).

Definition Attributes : Type := gmap string AttributeValue.

(** A node is its index in the global [NodeList]. *)
Definition Node : Type := nat.
Definition NodeContainer : Type := list Node.

Record NetDevice : Type := mkNetDevice {
  dev_node : Node;
  dev_mac : string;
  dev_mac_attrs : Attributes
}.
Definition NetDeviceContainer : Type := list NetDevice.

Definition Ipv4InterfaceContainer : Type := list Ipv4Address.

Inductive TypeId : Type := UdpServer | UdpClient | UdpEchoServer | UdpEchoClient.

#[global] Instance TypeId_eq_dec : EqDecision TypeId.
Proof. solve_decision. Defined.

Record Application : Type := mkApplication {
  app_tid : TypeId;
  app_attrs : Attributes;
  app_node : option Node;
  app_start : Time;
  app_stop : Time
}.

(** An [ApplicationContainer] holds [Ptr<Application>]s: handles into the
    store of application objects, so that [Start], [Stop] and [Config::Set]
    act on the shared objects. *)
Definition ApplicationContainer : Type := list nat.

(** An application helper is an object factory: a type and the attributes
    set so far. *)
Record Helper : Type := mkHelper { h_tid : TypeId; h_attrs : Attributes }.

(** The calls of the ns-3.25 library that work through a handle they were
    given or have looked up, recorded when that handle is missing. *)
Inductive Fault : Type :=
| GetAddress_out_of_range (i size : nat)  (* m_interfaces[i].first->GetAddress (...) *)
| Install_on_null (tid : TypeId)          (* node->AddApplication (app) *)
| EnablePcap_on_null (prefix : string).   (* nd->GetObject<WifiNetDevice> () *)

(** The mutable state [main] works on: the process-wide tables of ns-3 and
    the helper objects whose methods advance a cursor. *)
Record State : Type := mkState {
  defaults : Attributes;            (* Config::SetDefault *)
  node_list : nat;                  (* NodeList: number of nodes created *)
  allocator : list Vector;          (* positionAlloc *)
  alloc_next : nat;                 (* its m_current *)
  mobility : list (Node * option Vector); (* installed ConstantPositionMobilityModels *)
  address_base : Ipv4Address;       (* Ipv4AddressHelper: network *)
  address_host : Z;                 (* Ipv4AddressHelper: next host number *)
  apps : list Application;          (* every application object, by handle *)
  faults : list Fault               (* calls made through a missing handle *)
}.

Definition initial : State :=
  mkState ∅ 0 [] 0 [] 0 1 [] [].

(** *** State passing *)

Definition M (A : Type) : Type := State -> A * State.

Definition ret {A} (a : A) : M A := fun s => (a, s).

Definition bind {A B} (c : M A) (k : A -> M B) : M B :=
  fun s => let '(a, s') := c s in k a s'.

Definition get : M State := fun s => (s, s).
Definition put (s : State) : M unit := fun _ => (tt, s).
Definition modify (f : State -> State) : M unit := fun s => (tt, f s).

Definition run {A} (c : M A) (s : State) : A * State := c s.

End Ns3.

Declare Scope ns3_scope.
Delimit Scope ns3_scope with ns3.
Notation "x <- c ;; k" := (Ns3.bind c (fun x => k))
  (at level 100, c at next level, right associativity) : ns3_scope.
Notation "c ;; k" := (Ns3.bind c (fun _ => k))
  (at level 100, right associativity) : ns3_scope.

Module Lib.
Import Ns3.
Local Open Scope ns3_scope.

(** *** Setters for the fields of [State] and [Application] *)

Definition set_defaults (f : Attributes -> Attributes) (s : State) : State :=
  mkState (f (defaults s)) (node_list s) (allocator s) (alloc_next s)
          (mobility s) (address_base s) (address_host s) (apps s) (faults s).

Definition set_node_list (n : nat) (s : State) : State :=
  mkState (defaults s) n (allocator s) (alloc_next s)
          (mobility s) (address_base s) (address_host s) (apps s) (faults s).

Definition set_allocator (l : list Vector) (i : nat) (s : State) : State :=
  mkState (defaults s) (node_list s) l i
          (mobility s) (address_base s) (address_host s) (apps s) (faults s).

Definition set_mobility (f : list (Node * option Vector) -> list (Node * option Vector))
    (s : State) : State :=
  mkState (defaults s) (node_list s) (allocator s) (alloc_next s)
          (f (mobility s)) (address_base s) (address_host s) (apps s) (faults s).

Definition set_address (base : Ipv4Address) (host : Z) (s : State) : State :=
  mkState (defaults s) (node_list s) (allocator s) (alloc_next s)
          (mobility s) base host (apps s) (faults s).

Definition set_apps (f : list Application -> list Application) (s : State) : State :=
  mkState (defaults s) (node_list s) (allocator s) (alloc_next s)
          (mobility s) (address_base s) (address_host s) (f (apps s)) (faults s).

Definition set_faults (f : list Fault -> list Fault) (s : State) : State :=
  mkState (defaults s) (node_list s) (allocator s) (alloc_next s)
          (mobility s) (address_base s) (address_host s) (apps s) (f (faults s)).

Definition set_start (t : Time) (a : Application) : Application :=
  mkApplication (app_tid a) (app_attrs a) (app_node a) t (app_stop a).

Definition set_stop (t : Time) (a : Application) : Application :=
  mkApplication (app_tid a) (app_attrs a) (app_node a) (app_start a) t.

Definition set_attr (name : string) (v : AttributeValue) (a : Application) : Application :=
  mkApplication (app_tid a) (<[name := v]> (app_attrs a)) (app_node a)
                (app_start a) (app_stop a).

(** *** [Config] *)

Definition SetDefault (name : string) (v : AttributeValue) : M unit :=
  modify (set_defaults (insert name v)).

(** [Config::Set ("/NodeList/*/ApplicationList/*/$ns3::<tid>/<name>", v)]:
    the path reaches every application of type [tid] that sits in the
    application list of a node. *)
Definition Set_applications (tid : TypeId) (name : string) (v : AttributeValue) : M unit :=
  modify (set_apps (fmap (fun a =>
    if decide (app_tid a = tid)
    then (if app_node a is Some _ then set_attr name v a else a)
    else a))).

(** *** Missing handles *)

(** A call that works through the handle [p]: recorded when [p] is missing. *)
Definition through {A} (p : option A) (f : Fault) : M unit :=
  match p with
  | Some _ => ret tt
  | None => modify (set_faults (fun l => l ++ [f]))
  end.

(** *** [NodeContainer] *)

(** [Create (n)] appends [n] new nodes; [NodeList::Add] numbers them in
    creation order. *)
Definition Create (c : NodeContainer) (n : nat) : M NodeContainer :=
  fun s => (c ++ seq (node_list s) n, set_node_list (node_list s + n)%nat s).

(** [NodeContainer::Get (i)] is [m_nodes[i]], unchecked in ns-3.25. *)
Definition Get (c : NodeContainer) (i : nat) : option Node := c !! i.

(** *** Wi-Fi devices *)

Record WifiMacHelper : Type := SetType { mac_type : string; mac_attrs : Attributes }.

(** [WifiHelper::Install (phy, mac, c)]: one device per node of [c]. *)
Definition WifiHelper_Install (mac : WifiMacHelper) (c : NodeContainer) : NetDeviceContainer :=
  (fun n => mkNetDevice n (mac_type mac) (mac_attrs mac)) <$> c.

(** [NetDeviceContainer::Get (i)] is [m_devices[i]], unchecked. *)
Definition Dev_Get (c : NetDeviceContainer) (i : nat) : option NetDevice := c !! i.

(** [phy.EnablePcap (prefix, nd)] asks the device [nd] for its
    [WifiNetDevice] ([nd->GetObject<WifiNetDevice> ()]); the result is the
    capture that was asked for. *)
Definition EnablePcap (prefix : string) (nd : option NetDevice)
    : M (string * option NetDevice) :=
  through nd (EnablePcap_on_null prefix) ;; ret (prefix, nd).

(** *** Mobility *)

(** [ListPositionAllocator::Add] pushes the position and rewinds the cursor. *)
Definition Add (v : Vector) : M unit :=
  modify (fun s => set_allocator (allocator s ++ [v]) 0 s).

(** [ListPositionAllocator::GetNext] returns the position under the cursor
    and advances it, going back to the first position after the last. *)
Definition GetNext : M (option Vector) :=
  fun s =>
    let i := alloc_next s in
    (allocator s !! i,
     set_allocator (allocator s)
       (if decide (S i = length (allocator s)) then 0%nat else S i) s).

(** [MobilityHelper::Install (c)]: each node of [c], in order, gets a
    constant-position model placed at the allocator's next position. *)
Fixpoint MobilityHelper_Install (c : NodeContainer) : M unit :=
  match c with
  | [] => ret tt
  | n :: c' =>
      v <- GetNext ;;
      modify (set_mobility (fun l => l ++ [(n, v)])) ;;
      MobilityHelper_Install c'
  end.

Definition GetPosition (s : State) (n : Node) : option Vector :=
  '(_, v) ← list_find (fun e => e.1 = n) (mobility s); v.2.

(** *** Addresses *)

Definition SetBase (network : Ipv4Address) : M unit :=
  modify (set_address network 1).

(** [Ipv4AddressHelper::Assign (devices)]: consecutive host numbers in the
    network, in the order of the devices. *)
Fixpoint Assign (devices : NetDeviceContainer) : M Ipv4InterfaceContainer :=
  match devices with
  | [] => ret []
  | _ :: devices' =>
      s <- get ;;
      put (set_address (address_base s) (address_host s + 1) s) ;;
      rest <- Assign devices' ;;
      ret (Z.lor (address_base s) (address_host s) :: rest)
  end.

(** [Ipv4InterfaceContainer::GetAddress (i)] is [m_interfaces[i]], unchecked. *)
Definition GetAddress (c : Ipv4InterfaceContainer) (i : nat) : option Ipv4Address := c !! i.

(** The call [c.GetAddress (i)] of a script: ns-3.25 takes the [Ptr<Ipv4>]
    out of [m_interfaces[i]] and asks it for the address
    ([ipv4->GetAddress (interface, 0).GetLocal ()]), so that past the end of
    the container the call works through a handle that is not there. *)
Definition GetAddress_call (c : Ipv4InterfaceContainer) (i : nat)
    : M (option Ipv4Address) :=
  through (GetAddress c i) (GetAddress_out_of_range i (length c)) ;;
  ret (GetAddress c i).

(** *** Application helpers *)

Definition UdpServerHelper (port : Z) : Helper :=
  mkHelper UdpServer {[ "Port" := UintegerValue port ]}.

Definition UdpEchoServerHelper (port : Z) : Helper :=
  mkHelper UdpEchoServer {[ "Port" := UintegerValue port ]}.

Definition UdpClientHelper (address : option Ipv4Address) (port : Z) : Helper :=
  mkHelper UdpClient
    (<[ "RemotePort" := UintegerValue port ]> {[ "RemoteAddress" := AddressValue address ]}).

Definition UdpEchoClientHelper (address : option Ipv4Address) (port : Z) : Helper :=
  mkHelper UdpEchoClient
    (<[ "RemotePort" := UintegerValue port ]> {[ "RemoteAddress" := AddressValue address ]}).

Definition SetAttribute (h : Helper) (name : string) (v : AttributeValue) : Helper :=
  mkHelper (h_tid h) (<[name := v]> (h_attrs h)).

(** [InstallPriv]: the factory creates the application object and adds it
    to the node ([node->AddApplication (app)]); the result is the handle of
    the new object. *)
Definition InstallPriv (h : Helper) (node : option Node) : M nat :=
  through node (Install_on_null (h_tid h)) ;;
  fun s => (length (apps s),
            set_apps (fun l => l ++ [mkApplication (h_tid h) (h_attrs h) node 0 0]) s).

(** [Install (Ptr<Node>)]. *)
Definition Install1 (h : Helper) (node : option Node) : M ApplicationContainer :=
  a <- InstallPriv h node ;; ret [a].

(** [Install (NodeContainer)]. *)
Fixpoint Install (h : Helper) (c : NodeContainer) : M ApplicationContainer :=
  match c with
  | [] => ret []
  | n :: c' => a <- InstallPriv h (Some n) ;; rest <- Install h c' ;; ret (a :: rest)
  end.

Definition Start (c : ApplicationContainer) (t : Time) : M unit :=
  modify (set_apps (fun l => foldr (fun h l' => alter (set_start t) h l') l c)).

Definition Stop (c : ApplicationContainer) (t : Time) : M unit :=
  modify (set_apps (fun l => foldr (fun h l' => alter (set_stop t) h l') l c)).

(** [ApplicationContainer::Get (i)] is [m_applications[i]], unchecked. *)
Definition App_Get (c : ApplicationContainer) (i : nat) : option nat := c !! i.

(** [DynamicCast<UdpServer> (p)]: the handle itself when the object is a
    [UdpServer], the null [Ptr] otherwise. *)
Definition DynamicCast_UdpServer (s : State) (p : option nat) : option nat :=
  h ← p; a ← apps s !! h;
  if decide (app_tid a = UdpServer) then Some h else None.

(** [p->GetReceived ()], a [uint32_t] in ns-3.25; [received] is the
    counter the simulator left in each [UdpServer]. *)
Definition GetReceived (received : nat -> Z) (p : option nat) : option Z :=
  h ← p; Some (Uint.wrap 32 (received h)).

End Lib.

(** ** Command-line parameters

    [payloadSize] and [nMpdus] are [uint32_t], [simulationTime] is
    [uint64_t], [enableRts] is [bool]. *)

Record Config : Type := mkConfig {
  payloadSize : Z;
  simulationTime : Z;
  nMpdus : Z;
  enableRts : bool
}.

Definition default_config : Config := mkConfig 1472 10 1 false.

Definition well_formed (cfg : Config) : Prop :=
  Uint.in_range 32 (payloadSize cfg) /\
  Uint.in_range 64 (simulationTime cfg) /\
  Uint.in_range 32 (nMpdus cfg).

(** What [main] does that can be observed from outside: calls into the
    simulator and lines written to [std::cout]. *)
Inductive Event : Type :=
| SimulatorStop (t : Ns3.Time)
| SimulatorRun
| SimulatorDestroy
| Stdout (line : string).

(** [exit_status] is [Some 0] after [return 0] and [None] when [main]
    works through a handle that is not there and so does not return. *)
Record Outcome : Type := mkOutcome { events : list Event; exit_status : option Z }.

(** The simulator is outside the scripts: given the state [main] has built
    and the horizon, it leaves a received-packet counter in every
    application object. *)
Definition Engine : Type := Ns3.State -> Ns3.Time -> nat -> Z.

(** ** The part all programs share: link configuration, nodes, devices,
    positions, addresses *)

Module Common.
Import Ns3 Lib.
Local Open Scope ns3_scope.

(** [maxAmpduSize = nMpdus * (payloadSize + 200)] on [uint32_t]. *)
Definition maxAmpduSize (nMpdus payloadSize : Z) : Z :=
  Uint.mul32 nMpdus (Uint.add32 payloadSize 200).

(** [RangePropagationLossModel::MaxRange], [DoubleValue (5)]. *)
Definition MaxRange : Double.t := Double.of_Z 5.

Record Network : Type := mkNetwork {
  wifiStaNodes : NodeContainer;
  wifiApNode : NodeContainer;
  staDevices : NetDeviceContainer;
  apDevice : NetDeviceContainer;
  StaInterface : Ipv4InterfaceContainer;
  ApInterface : Ipv4InterfaceContainer
}.

Definition vec (x y z : Z) : Vector :=
  mkVector (Double.of_Z x) (Double.of_Z y) (Double.of_Z z).

(** [extra_nodes] is the number of nodes of the container [nodes], which
    only simple-ht-hidden-stations.cc creates ([nodes.Create (4)]). *)
Definition network (extra_nodes : nat) (cfg : Config) : M Network :=
  (if negb (enableRts cfg)
   then SetDefault "ns3::WifiRemoteStationManager::RtsCtsThreshold" (StringValue "999999")
   else SetDefault "ns3::WifiRemoteStationManager::RtsCtsThreshold" (StringValue "0")) ;;
  SetDefault "ns3::WifiRemoteStationManager::FragmentationThreshold" (StringValue "990000") ;;
  let maxAmpduSize := maxAmpduSize (nMpdus cfg) (payloadSize cfg) in
  SetDefault "ns3::RangePropagationLossModel::MaxRange" (DoubleValue MaxRange) ;;
  wifiStaNodes <- Create [] 4 ;;
  wifiApNode <- Create [] 1 ;;
  _ <- Create [] extra_nodes ;;
  let mac := SetType "ns3::StaWifiMac"
               (<[ "Ssid" := SsidValue "simple-mpdu-aggregation" ]>
                (<[ "ActiveProbing" := BooleanValue false ]>
                 {[ "BE_MaxAmpduSize" := UintegerValue maxAmpduSize ]})) in
  let staDevices := WifiHelper_Install mac wifiStaNodes in
  let mac := SetType "ns3::ApWifiMac"
               (<[ "Ssid" := SsidValue "simple-mpdu-aggregation" ]>
                (<[ "BeaconInterval" := TimeValue (MicroSeconds 102400) ]>
                 (<[ "BeaconGeneration" := BooleanValue true ]>
                  {[ "BE_MaxAmpduSize" := UintegerValue maxAmpduSize ]}))) in
  let apDevice := WifiHelper_Install mac wifiApNode in
  Add (vec 5 5 0) ;;
  Add (vec 5 10 0) ;;
  Add (vec 0 5 0) ;;
  Add (vec 5 0 0) ;;
  Add (vec 10 5 0) ;;
  MobilityHelper_Install wifiApNode ;;
  MobilityHelper_Install wifiStaNodes ;;
  SetBase (ipv4 192 168 1 0) ;;
  StaInterface <- Assign staDevices ;;
  ApInterface <- Assign apDevice ;;
  ret (mkNetwork wifiStaNodes wifiApNode staDevices apDevice StaInterface ApInterface).

(** [double throughput = totalPacketsThrough * payloadSize * 8
                          / (simulationTime * 1000000.0);]
    The numerator is a [uint32_t] product, converted to [double] for the
    division; [simulationTime] is converted to [double] for the product
    with the literal. *)
Definition throughput (totalPacketsThrough payloadSize simulationTime : Z) : Double.t :=
  Double.div
    (Double.of_Z (Uint.mul32 (Uint.mul32 totalPacketsThrough payloadSize) 8))
    (Double.mul (Double.of_Z simulationTime) (Double.of_Z 1000000)).

(** One reporting block per pair of a line prefix and an application
    container:
    [uint32_t n = DynamicCast<UdpServer> (c.Get (0))->GetReceived ();
     double t = ...;
     std::cout << prefix << t << " Mbit/s" << '\n';]
    [fmt] is the formatting of a [double] by [operator<<]. *)
Fixpoint report (fmt : Double.t -> string) (cfg : Config) (s : State)
    (received : nat -> Z) (blocks : list (string * ApplicationContainer)) : Outcome :=
  match blocks with
  | [] => mkOutcome [] (Some 0)
  | (prefix, c) :: blocks' =>
      match GetReceived received (DynamicCast_UdpServer s (App_Get c 0)) with
      | None => mkOutcome [] None
      | Some totalPacketsThrough =>
          let t := throughput totalPacketsThrough (payloadSize cfg) (simulationTime cfg) in
          let o := report fmt cfg s received blocks' in
          mkOutcome (Stdout (prefix +:+ fmt t +:+ " Mbit/s") :: events o) (exit_status o)
      end
  end.

(** [Simulator::Stop (Seconds (simulationTime + 1)); Simulator::Run ();
    Simulator::Destroy ();] *)
Definition horizon (cfg : Config) : Time := Seconds (Uint.add64 (simulationTime cfg) 1).

(** The sum [simulationTime + 1] is a [uint64_t]; [Seconds] receives it as
    a [double] and [Time] keeps 64-bit nanoseconds, both exact as long as
    the horizon is below 2^63 ns. *)
Definition representable (cfg : Config) : Prop := simulationTime cfg <= 9223372035.

Definition simulate (cfg : Config) : list Event :=
  [SimulatorStop (horizon cfg); SimulatorRun; SimulatorDestroy].

Definition after (ev : list Event) (o : Outcome) : Outcome :=
  mkOutcome (ev ++ events o) (exit_status o).

(** What [main] does once it has built its scenario: [o] when every
    handle the build has worked through was there; otherwise the behaviour
    of the program has been undefined since the first recorded call, and
    nothing is handed to the simulator, nothing is printed and [main] does
    not return. *)
Definition unless_fault (s : State) (o : Outcome) : Outcome :=
  match faults s with
  | [] => o
  | _ :: _ => mkOutcome [] None
  end.

End Common.

(** ** simple-ht-hidden-stations.cc (first program) *)

Module SimpleHt.
Import Ns3 Lib Common.
Local Open Scope ns3_scope.

Record Scenario : Type := mkScenario {
  net : Network;
  serverApp : ApplicationContainer;
  clientApp1 : ApplicationContainer;
  serverApps1 : ApplicationContainer;
  serverApps2 : ApplicationContainer;
  serverApps3 : ApplicationContainer;
  serverApps4 : ApplicationContainer;
  clientApps1 : ApplicationContainer;
  clientApps2 : ApplicationContainer;
  clientApps3 : ApplicationContainer;
  clientApps4 : ApplicationContainer;
  pcap : list (string * option NetDevice)   (* phy.EnablePcap (prefix, device) *)
}.

(** The echo clients differ only in the station address. *)
Definition echoClient (address : option Ipv4Address) : Helper :=
  let h := UdpEchoClientHelper address 9 in
  let h := SetAttribute h "MaxPackets" (UintegerValue 1) in
  let h := SetAttribute h "Interval" (TimeValue (NanoSeconds 100000000)) in
  SetAttribute h "PacketSize" (UintegerValue 1024).

Definition build (cfg : Config) : M Scenario :=
  n <- network 4 cfg ;;
  let stop := Seconds (Uint.add64 (simulationTime cfg) 1) in
  (* Setting applications *)
  let myServer := UdpServerHelper 9 in
  serverApp <- Install myServer (wifiApNode n) ;;
  Start serverApp (Seconds 0) ;;
  Stop serverApp stop ;;
  address <- GetAddress_call (ApInterface n) 1 ;;
  let myClient := UdpClientHelper address 9 in
  let myClient := SetAttribute myClient "MaxPackets" (UintegerValue 4294967295) in
  let myClient := SetAttribute myClient "Interval" (TimeValue (NanoSeconds 20000)) in
  let myClient := SetAttribute myClient "PacketSize" (UintegerValue (payloadSize cfg)) in
  (* Saturated UDP traffic from stations to AP *)
  clientApp1 <- Install myClient (wifiStaNodes n) ;;
  Start clientApp1 (Seconds 1) ;;
  Stop clientApp1 stop ;;
  (* Install four UDP echo server applications on the AP Node *)
  let echoServer := UdpEchoServerHelper 9 in
  serverApps1 <- Install1 echoServer (Get (wifiApNode n) 1) ;;
  Start serverApps1 (Seconds 1) ;;
  Stop serverApps1 (Seconds 10) ;;
  serverApps2 <- Install1 echoServer (Get (wifiApNode n) 2) ;;
  Start serverApps2 (Seconds 1) ;;
  Stop serverApps2 (Seconds 10) ;;
  serverApps3 <- Install1 echoServer (Get (wifiApNode n) 3) ;;
  Start serverApps3 (Seconds 1) ;;
  Stop serverApps3 (Seconds 10) ;;
  serverApps4 <- Install1 echoServer (Get (wifiApNode n) 4) ;;
  Start serverApps4 (Seconds 1) ;;
  Stop serverApps4 (Seconds 10) ;;
  (* Create echo client and set its attributes *)
  address1 <- GetAddress_call (StaInterface n) 1 ;;
  let echoClient1 := echoClient address1 in
  address2 <- GetAddress_call (StaInterface n) 2 ;;
  let echoClient2 := echoClient address2 in
  address3 <- GetAddress_call (StaInterface n) 3 ;;
  let echoClient3 := echoClient address3 in
  address4 <- GetAddress_call (StaInterface n) 4 ;;
  let echoClient4 := echoClient address4 in
  clientApps1 <- Install1 echoClient1 (Get (wifiStaNodes n) 1) ;;
  Start clientApps1 (Seconds 1) ;;
  Stop clientApps1 (Seconds 10) ;;
  clientApps2 <- Install1 echoClient2 (Get (wifiStaNodes n) 2) ;;
  Start clientApps2 (Seconds 1) ;;
  Stop clientApps2 (Seconds 10) ;;
  clientApps3 <- Install1 echoClient3 (Get (wifiStaNodes n) 3) ;;
  Start clientApps3 (Seconds 1) ;;
  Stop clientApps3 (Seconds 10) ;;
  clientApps4 <- Install1 echoClient4 (Get (wifiStaNodes n) 4) ;;
  Start clientApps4 (Seconds 1) ;;
  Stop clientApps4 (Seconds 10) ;;
  pcap0 <- EnablePcap "SimpleHtHiddenStations_Ap" (Dev_Get (apDevice n) 0) ;;
  pcap1 <- EnablePcap "SimpleHtHiddenStations_Sta1" (Dev_Get (staDevices n) 0) ;;
  pcap2 <- EnablePcap "SimpleHtHiddenStations_Sta2" (Dev_Get (staDevices n) 1) ;;
  let pcap := [pcap0; pcap1; pcap2] in
  ret (mkScenario n serverApp clientApp1
         serverApps1 serverApps2 serverApps3 serverApps4
         clientApps1 clientApps2 clientApps3 clientApps4 pcap).

Definition blocks (sc : Scenario) : list (string * ApplicationContainer) :=
  [("ServerApp1 Throughput: ", serverApps1 sc);
   ("ServerApp2 Throughput: ", serverApps2 sc);
   ("ServerApp3 Throughput: ", serverApps3 sc);
   ("ServerApp4 Throughput: ", serverApps4 sc)].

Definition main (fmt : Double.t -> string) (engine : Engine) (cfg : Config) : Outcome :=
  let '(sc, s) := run (build cfg) initial in
  let received := engine s (horizon cfg) in
  unless_fault s (after (simulate cfg) (report fmt cfg s received (blocks sc))).

End SimpleHt.

(** ** hiddenstations2.cc *)

Module Hidden2.
Import Ns3 Lib Common.
Local Open Scope ns3_scope.

Record Scenario : Type := mkScenario {
  net : Network;
  serverApp1 : ApplicationContainer;
  serverApp2 : ApplicationContainer;
  serverApp3 : ApplicationContainer;
  serverApp4 : ApplicationContainer;
  clientApp1 : ApplicationContainer;
  clientApp2 : ApplicationContainer;
  clientApp3 : ApplicationContainer;
  clientApp4 : ApplicationContainer;
  pcap : list (string * option NetDevice)
}.

(** [myClient1] .. [myClient4] differ only in the address. *)
Definition myClient (cfg : Config) (nPackets : Z) (address : option Ipv4Address) : Helper :=
  let h := UdpClientHelper address 9 in
  let h := SetAttribute h "MaxPackets" (UintegerValue nPackets) in
  let h := SetAttribute h "Interval" (TimeValue (NanoSeconds 20000)) in
  SetAttribute h "PacketSize" (UintegerValue (payloadSize cfg)).

(** [nPackets] is the fifth command-line parameter, a [uint32_t], 0 by
    default. *)
Definition build (cfg : Config) (nPackets : Z) : M Scenario :=
  n <- network 0 cfg ;;
  let stop := Seconds (Uint.add64 (simulationTime cfg) 1) in
  let myServer := UdpServerHelper 9 in
  serverApp1 <- Install1 myServer (Get (wifiApNode n) 0) ;;
  Start serverApp1 (Seconds 0) ;;
  Stop serverApp1 stop ;;
  serverApp2 <- Install1 myServer (Get (wifiApNode n) 0) ;;
  Start serverApp2 (Seconds 0) ;;
  Stop serverApp2 stop ;;
  serverApp3 <- Install1 myServer (Get (wifiApNode n) 0) ;;
  Start serverApp3 (Seconds 0) ;;
  Stop serverApp3 stop ;;
  serverApp4 <- Install1 myServer (Get (wifiApNode n) 0) ;;
  Start serverApp4 (Seconds 0) ;;
  Stop serverApp4 stop ;;
  address1 <- GetAddress_call (ApInterface n) 1 ;;
  clientApp1 <- Install (myClient cfg nPackets address1) (wifiStaNodes n) ;;
  Start clientApp1 (Seconds 1) ;;
  Stop clientApp1 stop ;;
  address2 <- GetAddress_call (ApInterface n) 2 ;;
  clientApp2 <- Install (myClient cfg nPackets address2) (wifiStaNodes n) ;;
  Start clientApp2 (Seconds 1) ;;
  Stop clientApp2 stop ;;
  address3 <- GetAddress_call (ApInterface n) 3 ;;
  clientApp3 <- Install (myClient cfg nPackets address3) (wifiStaNodes n) ;;
  Start clientApp3 (Seconds 1) ;;
  Stop clientApp3 stop ;;
  address4 <- GetAddress_call (ApInterface n) 4 ;;
  clientApp4 <- Install (myClient cfg nPackets address4) (wifiStaNodes n) ;;
  Start clientApp4 (Seconds 1) ;;
  Stop clientApp4 stop ;;
  pcap0 <- EnablePcap "SimpleHtHiddenStations_Ap" (Dev_Get (apDevice n) 0) ;;
  pcap1 <- EnablePcap "SimpleHtHiddenStations_Sta1" (Dev_Get (staDevices n) 0) ;;
  pcap2 <- EnablePcap "SimpleHtHiddenStations_Sta2" (Dev_Get (staDevices n) 1) ;;
  pcap3 <- EnablePcap "SimpleHtHiddenStations_Sta3" (Dev_Get (staDevices n) 2) ;;
  pcap4 <- EnablePcap "SimpleHtHiddenStations_Sta4" (Dev_Get (staDevices n) 3) ;;
  pcap5 <- EnablePcap "SimpleHtHiddenStations_Sta5" (Dev_Get (staDevices n) 4) ;;
  let pcap := [pcap0; pcap1; pcap2; pcap3; pcap4; pcap5] in
  ret (mkScenario n serverApp1 serverApp2 serverApp3 serverApp4
         clientApp1 clientApp2 clientApp3 clientApp4 pcap).

Definition blocks (sc : Scenario) : list (string * ApplicationContainer) :=
  [(" 1Throughput: ", serverApp1 sc);
   ("2 Throughput: ", serverApp2 sc);
   ("3 Throughput: ", serverApp3 sc);
   ("4 Throughput: ", serverApp4 sc)].

Definition main (fmt : Double.t -> string) (engine : Engine) (cfg : Config)
    (nPackets : Z) : Outcome :=
  let '(sc, s) := run (build cfg nPackets) initial in
  let received := engine s (horizon cfg) in
  unless_fault s (after (simulate cfg) (report fmt cfg s received (blocks sc))).

End Hidden2.

(** ** hiddenstations3.cc *)

Module Hidden3.
Import Ns3 Lib Common.
Local Open Scope ns3_scope.

Record Scenario : Type := mkScenario {
  net : Network;
  serverApp : ApplicationContainer;
  serverApp2 : ApplicationContainer;
  serverApp3 : ApplicationContainer;
  serverApp4 : ApplicationContainer;
  clientApp1 : ApplicationContainer;
  clientApp2 : ApplicationContainer;
  clientApp3 : ApplicationContainer;
  clientApp4 : ApplicationContainer;
  pcap : list (string * option NetDevice)
}.

(** [myClient], [myClient2] .. [myClient4] differ only in the port. *)
Definition myClient (cfg : Config) (nPackets : Z) (address : option Ipv4Address)
    (port : Z) : Helper :=
  let h := UdpEchoClientHelper address port in
  let h := SetAttribute h "MaxPackets" (UintegerValue nPackets) in
  let h := SetAttribute h "Interval" (TimeValue (NanoSeconds 100000000)) in
  SetAttribute h "PacketSize" (UintegerValue (payloadSize cfg)).

(** [ApplicationContainer (Ptr<Application>)]: the container of one handle. *)
Definition single (p : option nat) : ApplicationContainer :=
  match p with Some h => [h] | None => [] end.

Definition build (cfg : Config) (nPackets : Z) : M Scenario :=
  n <- network 0 cfg ;;
  let stop := Seconds (Uint.add64 (simulationTime cfg) 1) in
  let myServer := UdpEchoServerHelper 9 in
  serverApp <- Install1 myServer (Get (wifiApNode n) 0) ;;
  Start serverApp (Seconds 0) ;;
  Stop serverApp stop ;;
  serverApp2 <- Install1 myServer (Get (wifiApNode n) 0) ;;
  Start serverApp2 (Seconds 0) ;;
  Stop serverApp2 stop ;;
  installed <- Install myServer (wifiApNode n) ;;
  let serverApp3 := single (App_Get installed 0) in
  Start serverApp3 (Seconds 1) ;;
  Stop serverApp3 stop ;;
  serverApp4 <- Install1 myServer (Get (wifiApNode n) 0) ;;
  Start serverApp4 (Seconds 1) ;;
  Stop serverApp4 stop ;;
  address <- GetAddress_call (ApInterface n) 0 ;;
  let myClient1 := myClient cfg nPackets address 9 in
  address <- GetAddress_call (ApInterface n) 0 ;;
  let myClient2 := myClient cfg nPackets address 10 in
  address <- GetAddress_call (ApInterface n) 0 ;;
  let myClient3 := myClient cfg nPackets address 11 in
  address <- GetAddress_call (ApInterface n) 0 ;;
  let myClient4 := myClient cfg nPackets address 12 in
  clientApp1 <- Install1 myClient1 (Get (wifiStaNodes n) 0) ;;
  Start clientApp1 (Seconds 1) ;;
  Stop clientApp1 stop ;;
  clientApp2 <- Install1 myClient2 (Get (wifiStaNodes n) 1) ;;
  Start clientApp2 (Seconds 2) ;;
  Stop clientApp2 stop ;;
  clientApp3 <- Install1 myClient3 (Get (wifiStaNodes n) 2) ;;
  Start clientApp3 (Seconds 3) ;;
  Stop clientApp3 stop ;;
  clientApp4 <- Install1 myClient4 (Get (wifiStaNodes n) 3) ;;
  Start clientApp4 (Seconds 4) ;;
  Stop clientApp4 stop ;;
  Set_applications UdpEchoClient "MaxPackets" (UintegerValue 3) ;;
  pcap0 <- EnablePcap "SimpleHtHiddenStations_Ap" (Dev_Get (apDevice n) 0) ;;
  pcap1 <- EnablePcap "SimpleHtHiddenStations_Sta1" (Dev_Get (staDevices n) 0) ;;
  pcap2 <- EnablePcap "SimpleHtHiddenStations_Sta2" (Dev_Get (staDevices n) 1) ;;
  pcap3 <- EnablePcap "SimpleHtHiddenStations_Sta3" (Dev_Get (staDevices n) 2) ;;
  pcap4 <- EnablePcap "SimpleHtHiddenStations_Sta4" (Dev_Get (staDevices n) 3) ;;
  let pcap := [pcap0; pcap1; pcap2; pcap3; pcap4] in
  ret (mkScenario n serverApp serverApp2 serverApp3 serverApp4
         clientApp1 clientApp2 clientApp3 clientApp4 pcap).

(** A firing of the [RxWithAddresses] trace source of a [UdpEchoClient]:
    the context path, the packet size and the two addresses. *)
Record Rx : Type := mkRx {
  rx_context : string;
  rx_size : Z;
  rx_from : Ipv4Address;
  rx_local : Ipv4Address
}.

(** [void RxTrace (std::string context, Ptr<const Packet> pkt,
                   const Address& a, const Address& b)]: two lines on
    [std::cout]; [show_size] and [show_ipv4] are the [operator<<] of
    [uint32_t] and [Ipv4Address]. *)
Definition RxTrace (show_size : Z -> string) (show_ipv4 : Ipv4Address -> string)
    (r : Rx) : list Event :=
  [Stdout (rx_context r);
   Stdout ("	RxTrace: size = " +:+ show_size (rx_size r)
           +:+ " From Address: " +:+ show_ipv4 (rx_from r)
           +:+ " LocalAddress: " +:+ show_ipv4 (rx_local r))].

(** The reporting block is commented out: after the run, [return 0].
    [rx] gives the firings of the trace source during [Simulator::Run]. *)
Definition main (show_size : Z -> string) (show_ipv4 : Ipv4Address -> string)
    (rx : State -> Time -> list Rx) (cfg : Config) (nPackets : Z) : Outcome :=
  let '(sc, s) := run (build cfg nPackets) initial in
  unless_fault s
    (mkOutcome
       ([SimulatorStop (horizon cfg); SimulatorRun]
          ++ (rx s (horizon cfg) ≫= RxTrace show_size show_ipv4)
          ++ [SimulatorDestroy])
       (Some 0)).

End Hidden3.

(** ** Observations on an outcome *)

Module Observe.
Import Ns3.

Definition stdout (ev : list Event) : list string :=
  omap (fun e => match e with Stdout l => Some l | _ => None end) ev.

(** What follows the return of [Simulator::Destroy ()]. *)
Fixpoint after_destroy (ev : list Event) : list Event :=
  match ev with
  | [] => []
  | SimulatorDestroy :: ev' => ev'
  | _ :: ev' => after_destroy ev'
  end.

(** The lines printed once the run is over. *)
Definition reported (o : Outcome) : list string := stdout (after_destroy (events o)).

Definition ends_with (suffix s : string) : bool :=
  String.eqb
    (String.substring (String.length s - String.length suffix) (String.length suffix) s)
    suffix.

(** A line of the form [<label> Throughput: <value> Mbit/s] with a label
    that is not empty. *)
Definition report_form (l : string) : bool :=
  match String.index 0 " Throughput: " l with
  | Some (S _) => ends_with " Mbit/s" l
  | _ => false
  end.

Definition is_client (a : Application) : bool :=
  match app_tid a with UdpClient | UdpEchoClient => true | _ => false end.

Definition is_server (a : Application) : bool :=
  match app_tid a with UdpServer | UdpEchoServer => true | _ => false end.

(** The flows of a scenario are its client applications: each sends from
    its node to its [RemoteAddress] between its start and its stop. *)
Definition flows (s : State) : list Application := filter (fun a => is_client a = true) (apps s).

Definition servers (s : State) : list Application := filter (fun a => is_server a = true) (apps s).

(** Type, node, start and stop of every application object, by handle. *)
Definition schedule (s : State) : list (TypeId * option Node * Time * Time) :=
  (fun a => (app_tid a, app_node a, app_start a, app_stop a)) <$> apps s.

(** The value of one attribute in every application object, by handle. *)
Definition attribute (name : string) (s : State) : list (option AttributeValue) :=
  (fun a => app_attrs a !! name) <$> apps s.


(** Distance between the positions of two nodes. *)
Definition distance (s : State) (a b : Node) : option Double.t :=
  pa ← Lib.GetPosition s a; pb ← Lib.GetPosition s b;
  Some (CalculateDistance pa pb).

(** [RangePropagationLossModel]: a transmission is received when the
    distance does not exceed [MaxRange]. *)
Definition in_range (d : Double.t) : bool := Double.leb d Common.MaxRange.



End Observe.

(** ** Bounded request/response flows *)

Module BoundedEcho.
Import Ns3.

(** Modelled from the spec: the behaviour of the echo client and echo server
    applications, which are ns-3 code outside the scripts.  "One node sends
    a small fixed number of request packets to another node's designated
    port; each request triggers exactly one reply from the receiver back to
    the sender, and the exchange terminates either when the packet budget is
    exhausted or when stop-offset is reached, whichever comes first."
    Requests carry their sequence number; the medium may reorder but, by
    the claim's assumption, does not lose. *)
Record Flow : Type := mkFlow { budget : nat; start : Time; stop : Time }.

Record St : Type := mkSt {
  now : Time;
  sent : nat;                 (* requests sent so far *)
  requests : list nat;        (* requests on the medium *)
  delivered : list nat;       (* requests delivered to the receiver, in order *)
  replies : list nat;         (* replies the receiver has sent, in order *)
  returned : list nat         (* replies delivered back to the sender *)
}.

Definition init (f : Flow) : St := mkSt (start f) 0 [] [] [] [].

(** Modelled from the spec: the steps of such an exchange (the
    applications and the medium are ns-3 code outside the scripts).  The
    sender emits the next request, the medium
    delivers the request at some position to the receiver (which counts it
    and answers at once), the medium hands a reply back to the sender, or
    time passes. *)
Inductive Action : Type :=
| Send
| Deliver (i : nat)
| Return (i : nat)
| Tick (t : Time).

Definition exec (f : Flow) (a : Action) (s : St) : option St :=
  match a with
  | Send =>
      if decide ((sent s < budget f)%nat /\ now s < stop f)
      then Some (mkSt (now s) (S (sent s)) (requests s ++ [sent s])
                      (delivered s) (replies s) (returned s))
      else None
  | Deliver i =>
      n ← requests s !! i;
      Some (mkSt (now s) (sent s) (delete i (requests s))
                 (delivered s ++ [n]) (replies s ++ [n]) (returned s))
  | Return i =>
      n ← replies s !! i;
      if decide (n ∈ returned s) then None
      else Some (mkSt (now s) (sent s) (requests s)
                      (delivered s) (replies s) (returned s ++ [n]))
  | Tick t =>
      if decide (now s <= t)
      then Some (mkSt t (sent s) (requests s) (delivered s) (replies s) (returned s))
      else None
  end.

Fixpoint execs (f : Flow) (l : list Action) (s : St) : option St :=
  match l with
  | [] => Some s
  | a :: l' => s' ← exec f a s; execs f l' s'
  end.

Definition reachable (f : Flow) (s : St) : Prop :=
  exists l, execs f l (init f) = Some s.

(** What every reachable state satisfies: the budget bounds the requests
    sent; the requests on the medium and the delivered ones are distinct and
    were all sent; the receiver has answered exactly the delivered requests;
    the replies handed back are distinct and were sent by the receiver. *)
Definition inv (f : Flow) (s : St) : Prop :=
  (sent s <= budget f)%nat /\
  NoDup (requests s ++ delivered s) /\
  (forall n, n ∈ requests s ++ delivered s -> (n < sent s)%nat) /\
  replies s = delivered s /\
  NoDup (returned s) /\
  (forall n, n ∈ returned s -> n ∈ replies s).

(** The flow a script declares by installing an echo client: the budget is
    its [MaxPackets] attribute, the window its start and stop times. *)
Definition of_application (a : Application) : option Flow :=
  match app_tid a, app_attrs a !! "MaxPackets" with
  | UdpEchoClient, Some (UintegerValue k) =>
      Some (mkFlow (Z.to_nat k) (app_start a) (app_stop a))
  | _, _ => None
  end.

End BoundedEcho.

(** ** simple-ht-hidden-stations.cc (second program) *)

Module SimpleHt2.
Import Ns3 Lib Common.
Local Open Scope ns3_scope.

Record Scenario : Type := mkScenario {
  net : Network;
  echoApp1 : ApplicationContainer;
  echoApp2 : ApplicationContainer;
  echoApp3 : ApplicationContainer;
  echoApp4 : ApplicationContainer;
  MS1_client0 : ApplicationContainer;
  MS2_client0 : ApplicationContainer;
  MS3_client0 : ApplicationContainer;
  MS4_client0 : ApplicationContainer;
  pcap : list (string * option NetDevice)
}.

(** [echoClient_MS1] .. [echoClient_MS4] differ only in the station
    address; [Time (interval)] with [interval = "0.1"] is 0.1 s. *)
Definition echoClient_MS (cfg : Config) (address : option Ipv4Address) : Helper :=
  let h := UdpEchoClientHelper address 9 in
  let h := SetAttribute h "MaxPackets" (UintegerValue 4294967295) in
  let h := SetAttribute h "Interval" (TimeValue (NanoSeconds 100000000)) in
  SetAttribute h "PacketSize" (UintegerValue (payloadSize cfg)).

Definition build (cfg : Config) : M Scenario :=
  n <- network 0 cfg ;;
  let stop := Seconds (Uint.add64 (simulationTime cfg) 1) in
  (* Install four UDP echo server applications on the AP node *)
  let echoServer := UdpEchoServerHelper 9 in
  echoApp1 <- Install1 echoServer (Get (wifiApNode n) 0) ;;
  Start echoApp1 (Seconds 0) ;;
  Stop echoApp1 stop ;;
  echoApp2 <- Install1 echoServer (Get (wifiApNode n) 0) ;;
  Start echoApp2 (Seconds 0) ;;
  Stop echoApp2 stop ;;
  echoApp3 <- Install1 echoServer (Get (wifiApNode n) 0) ;;
  Start echoApp3 (Seconds 0) ;;
  Stop echoApp3 stop ;;
  echoApp4 <- Install1 echoServer (Get (wifiApNode n) 0) ;;
  Start echoApp4 (Seconds 0) ;;
  Stop echoApp4 stop ;;
  (* n1: *)
  address1 <- GetAddress_call (StaInterface n) 1 ;;
  MS1_client0 <- Install1 (echoClient_MS cfg address1) (Get (wifiStaNodes n) 0) ;;
  Start MS1_client0 (Seconds 1) ;;
  Stop MS1_client0 stop ;;
  (* n2: *)
  address2 <- GetAddress_call (StaInterface n) 2 ;;
  MS2_client0 <- Install1 (echoClient_MS cfg address2) (Get (wifiStaNodes n) 0) ;;
  Start MS2_client0 (Seconds 1) ;;
  Stop MS2_client0 stop ;;
  (* n3: *)
  address3 <- GetAddress_call (StaInterface n) 3 ;;
  MS3_client0 <- Install1 (echoClient_MS cfg address3) (Get (wifiStaNodes n) 0) ;;
  Start MS3_client0 (Seconds 1) ;;
  Stop MS3_client0 stop ;;
  (* ns4: *)
  address4 <- GetAddress_call (StaInterface n) 4 ;;
  MS4_client0 <- Install1 (echoClient_MS cfg address4) (Get (wifiStaNodes n) 0) ;;
  Start MS4_client0 (Seconds 1) ;;
  Stop MS4_client0 stop ;;
  pcap0 <- EnablePcap "SimpleHtHiddenStations_Ap" (Dev_Get (apDevice n) 0) ;;
  pcap1 <- EnablePcap "SimpleHtHiddenStations_Sta1" (Dev_Get (staDevices n) 0) ;;
  pcap2 <- EnablePcap "SimpleHtHiddenStations_Sta2" (Dev_Get (staDevices n) 1) ;;
  pcap3 <- EnablePcap "SimpleHtHiddenStations_Sta3" (Dev_Get (staDevices n) 2) ;;
  pcap4 <- EnablePcap "SimpleHtHiddenStations_Sta4" (Dev_Get (staDevices n) 3) ;;
  pcap5 <- EnablePcap "SimpleHtHiddenStations_Sta5" (Dev_Get (staDevices n) 4) ;;
  let pcap := [pcap0; pcap1; pcap2; pcap3; pcap4; pcap5] in
  ret (mkScenario n echoApp1 echoApp2 echoApp3 echoApp4
         MS1_client0 MS2_client0 MS3_client0 MS4_client0 pcap).

Definition blocks (sc : Scenario) : list (string * ApplicationContainer) :=
  [("Server 1 Throughput: ", echoApp1 sc);
   ("Server 2 Throughput: ", echoApp2 sc);
   ("Server 3 Throughput: ", echoApp3 sc);
   ("Server 4 Throughput: ", echoApp4 sc)].

Definition main (fmt : Double.t -> string) (engine : Engine) (cfg : Config) : Outcome :=
  let '(sc, s) := run (build cfg) initial in
  let received := engine s (horizon cfg) in
  unless_fault s (after (simulate cfg) (report fmt cfg s received (blocks sc))).

End SimpleHt2.

(** ** Where the flows of a scenario lead *)

Module Reach.
Import Ns3 Common.

(** The address of each device's node: [Assign] fills an interface
    container in the order of the device container it is given. *)
Definition interfaces (n : Network) : list (Node * Ipv4Address) :=
  zip (dev_node <$> staDevices n) (StaInterface n)
  ++ zip (dev_node <$> apDevice n) (ApInterface n).

Definition node_of_address (n : Network) (a : Ipv4Address) : option Node :=
  e ← list_find (fun e : Node * Ipv4Address => e.2 = a) (interfaces n); Some e.2.1.

Definition remote_address (a : Application) : option Ipv4Address :=
  match app_attrs a !! "RemoteAddress" with
  | Some (AddressValue (Some x)) => Some x
  | _ => None
  end.

Definition uinteger (name : string) (a : Application) : option Z :=
  match app_attrs a !! name with
  | Some (UintegerValue k) => Some k
  | _ => None
  end.

(** Some server application sits on [node] with [port] as its [Port]. *)
Definition listens (s : State) (node : Node) (port : Z) : bool :=
  bool_decide (Exists (fun a => Observe.is_server a = true /\
                                app_node a = Some node /\
                                uinteger "Port" a = Some port) (apps s)).

(** The flow of client [a] is addressed to a node, at a port, where a
    server of the scenario listens. *)
Definition served (n : Network) (s : State) (a : Application) : bool :=
  match remote_address a ≫= node_of_address n, uinteger "RemotePort" a with
  | Some node, Some port => listens s node port
  | _, _ => false
  end.

(** The devices handed to [EnablePcap] that do not exist. *)
Definition missing_pcap (l : list (string * option NetDevice)) : list string :=
  fst <$> filter (fun e : string * option NetDevice => e.2 = None) l.

(** Every flow of the scenario starts before it stops and stops by the
    horizon. *)
Definition windows_ok (cfg : Config) (s : State) : Prop :=
  Forall (fun a => app_start a < app_stop a /\ app_stop a <= horizon cfg)
         (Observe.flows s).

End Reach.

(** * Properties *)

Import Ns3 Lib Common Observe.

(** Evaluation of a build on an arbitrary configuration: the values that
    depend on the parameters are kept as variables, the rest is computed. *)
Ltac symbolic cfg :=
  destruct cfg as [P T U rts];
  unfold SimpleHt.build, Hidden2.build, Hidden3.build, network;
  cbn [payloadSize simulationTime nMpdus enableRts];
  generalize (Common.maxAmpduSize U P); intros ampdu;
  try (generalize (Seconds (Uint.add64 T 1)); intros stop);
  destruct rts.

(** ** Link configuration *)

Lemma maxAmpduSize_mod (U P : Z) :
  maxAmpduSize U P = (U * (P + 200)) mod 2 ^ 32.
Proof.
  unfold maxAmpduSize, Uint.mul32, Uint.add32, Uint.wrap.
  apply Z.mul_mod_idemp_r. lia.
Qed.

Lemma network_BE_MaxAmpduSize (k : nat) (cfg : Config) :
  let n := (run (network k cfg) initial).1 in
  Forall (fun d => dev_mac_attrs d !! "BE_MaxAmpduSize"
                   = Some (UintegerValue (maxAmpduSize (nMpdus cfg) (payloadSize cfg))))
         (staDevices n ++ apDevice n).
Proof. symbolic cfg; vm_compute; repeat constructor. Qed.

(** C2, as stated, fails: with 65536 aggregation units and a payload of
    65336 bytes the byte budget is 0, not 65536 x 65536. *)
Lemma C2_budget_wraps :
  1 <= 65536 /\ Uint.in_range 32 65536 /\ Uint.in_range 32 65336 /\
  maxAmpduSize 65536 65336 = 0 /\
  maxAmpduSize 65536 65336 <> 65536 * (65336 + 200).
Proof. unfold Uint.in_range. vm_compute. repeat split; congruence. Qed.

(** C2, amended: for U >= 1 and P >= 0 read as 32-bit unsigned integers, the
    byte budget is U x (P + 200) reduced modulo 2^32, hence U x (P + 200)
    itself whenever that product is below 2^32; this value is the
    [BE_MaxAmpduSize] attribute of every station and access-point MAC. *)
Theorem C2_budget_modulo (k : nat) (cfg : Config) :
  well_formed cfg -> 1 <= nMpdus cfg ->
  let U := nMpdus cfg in
  let P := payloadSize cfg in
  let n := (run (network k cfg) initial).1 in
  maxAmpduSize U P = (U * (P + 200)) mod 2 ^ 32 /\
  (U * (P + 200) < 2 ^ 32 -> maxAmpduSize U P = U * (P + 200)) /\
  Forall (fun d => dev_mac_attrs d !! "BE_MaxAmpduSize"
                   = Some (UintegerValue (maxAmpduSize U P)))
         (staDevices n ++ apDevice n).
Proof.
  intros (HP & _ & HU) H1 U P n. unfold Uint.in_range in *.
  split; [apply maxAmpduSize_mod|]. split.
  - intros Hlt. rewrite maxAmpduSize_mod. apply Z.mod_small. subst U P. nia.
  - apply network_BE_MaxAmpduSize.
Qed.

Lemma C2_budget_modulo_default :
  maxAmpduSize 1 1472 = 1672 /\
  Forall (fun d => dev_mac_attrs d !! "BE_MaxAmpduSize" = Some (UintegerValue 1672))
         (let n := (run (network 4 default_config) initial).1 in
          staDevices n ++ apDevice n).
Proof.
  assert (W : well_formed default_config)
    by (unfold well_formed, Uint.in_range; vm_compute; repeat split; congruence).
  assert (H1 : 1 <= nMpdus default_config) by (vm_compute; congruence).
  destruct (C2_budget_modulo 4 default_config W H1) as (_ & He & Hd).
  split.
  - apply He. vm_compute. reflexivity.
  - exact Hd.
Defined.

(** ** Throughput *)




(** ** A received count of zero *)

Module Rounding.

Lemma shr_1_half (mrs : shr_record) :
  0 <= shr_m mrs -> shr_m (shr_1 mrs) = shr_m mrs / 2.
Proof.
  destruct mrs as [m r s]. cbn. intros Hm.
  destruct m as [|p|p]; [reflexivity| |lia].
  destruct p as [p|p|]; cbn; [| |reflexivity].
  - apply (Z.div_unique _ _ _ 1); lia.
  - apply (Z.div_unique _ _ _ 0); lia.
Qed.

Lemma iter_shr_1 (p : positive) (mrs : shr_record) :
  0 <= shr_m mrs -> shr_m (SpecFloat.iter_pos shr_1 p mrs) = shr_m mrs / 2 ^ Z.pos p.
Proof.
  revert mrs. induction p as [p IH|p IH|]; intros mrs Hm; cbn [SpecFloat.iter_pos].
  - pose proof (Z.pow_pos_nonneg 2 (Z.pos p) ltac:(lia) ltac:(lia)) as Hp.
    assert (E : 2 ^ Z.pos p~1 = 2 * 2 ^ Z.pos p * 2 ^ Z.pos p).
    { replace (Z.pos p~1) with (1 + Z.pos p + Z.pos p) by lia.
      rewrite !Z.pow_add_r by lia. rewrite Z.pow_1_r. reflexivity. }
    assert (H1 : 0 <= shr_m (shr_1 mrs))
      by (rewrite shr_1_half by exact Hm; apply Z.div_pos; lia).
    assert (H2 : 0 <= shr_m (SpecFloat.iter_pos shr_1 p (shr_1 mrs)))
      by (rewrite IH by exact H1; apply Z.div_pos; lia).
    rewrite IH by exact H2. rewrite IH by exact H1. rewrite shr_1_half by exact Hm.
    rewrite !Z.div_div by lia. rewrite E. f_equal. ring.
  - pose proof (Z.pow_pos_nonneg 2 (Z.pos p) ltac:(lia) ltac:(lia)) as Hp.
    assert (E : 2 ^ Z.pos p~0 = 2 ^ Z.pos p * 2 ^ Z.pos p).
    { replace (Z.pos p~0) with (Z.pos p + Z.pos p) by lia.
      rewrite Z.pow_add_r by lia. reflexivity. }
    assert (H2 : 0 <= shr_m (SpecFloat.iter_pos shr_1 p mrs))
      by (rewrite IH by exact Hm; apply Z.div_pos; lia).
    rewrite IH by exact H2. rewrite IH by exact Hm.
    rewrite Z.div_div by lia. rewrite E. reflexivity.
  - rewrite shr_1_half by exact Hm. reflexivity.
Qed.

Lemma digits2_lower (p : positive) : 2 ^ (Z.pos (digits2_pos p) - 1) <= Z.pos p.
Proof.
  induction p as [p IH|p IH|]; cbn [digits2_pos]; [| |cbn; lia].
  all: rewrite Pos2Z.inj_succ;
    replace (Z.succ (Z.pos (digits2_pos p)) - 1) with (1 + (Z.pos (digits2_pos p) - 1)) by lia;
    rewrite Z.pow_add_r, Z.pow_1_r by lia; lia.
Qed.

(** Shifting a positive mantissa to its format exponent keeps it positive
    as long as the exponent is not below the smallest one. *)
Lemma shr_fexp_positive (p : positive) (e : Z) (l : location) :
  -1074 <= e ->
  0 < shr_m (shr_fexp 53 1024 (Z.pos p) e l).1 /\ e <= (shr_fexp 53 1024 (Z.pos p) e l).2.
Proof.
  intros He. unfold shr_fexp, shr, fexp, emin. cbn [Zdigits2].
  assert (M : shr_m (shr_record_of_loc (Z.pos p) l) = Z.pos p)
    by (destruct l as [|[]]; reflexivity).
  destruct (Z.max (Z.pos (digits2_pos p) + e - 53) (3 - 1024 - 53) - e) as [|q|q] eqn:Hn;
    cbn [fst snd]; rewrite ?M; try (split; lia).
  rewrite iter_shr_1 by (rewrite M; lia). rewrite M. split; [|lia].
  apply Z.div_str_pos. split; [lia|].
  transitivity (2 ^ (Z.pos (digits2_pos p) - 1)); [|apply digits2_lower].
  apply Z.pow_le_mono_r; lia.
Qed.

Lemma round_nearest_even_positive (m : Z) (l : location) :
  0 < m -> 0 < round_nearest_even m l.
Proof. intros Hm. destruct l as [|[]]; cbn; try destruct (Z.even m); lia. Qed.

(** Rounding a positive mantissa never gives a zero or a NaN. *)
Lemma binary_round_aux_positive (sx : bool) (p : positive) (e : Z) (l : location) :
  -1074 <= e ->
  (exists m' e', e <= e' /\ binary_round_aux 53 1024 sx (Z.pos p) e l = S754_finite sx m' e')
  \/ binary_round_aux 53 1024 sx (Z.pos p) e l = S754_infinity sx.
Proof.
  intros He. unfold binary_round_aux.
  destruct (shr_fexp_positive p e l He) as (H1 & H1e).
  destruct (shr_fexp 53 1024 (Z.pos p) e l) as [mrs' e']. cbn [fst snd] in H1, H1e.
  pose proof (round_nearest_even_positive (shr_m mrs') (loc_of_shr_record mrs') H1) as H2.
  destruct (round_nearest_even (shr_m mrs') (loc_of_shr_record mrs')) as [|q|q]; try lia.
  destruct (shr_fexp_positive q e' loc_Exact ltac:(lia)) as (H3 & H3e).
  destruct (shr_fexp 53 1024 (Z.pos q) e' loc_Exact) as [mrs'' e'']. cbn [fst snd] in H3, H3e.
  destruct (shr_m mrs'') as [|m|m]; try lia.
  destruct (e'' <=? 1024 - 53); [left; exists m, e''; split; [lia|reflexivity]|right; reflexivity].
Qed.

Lemma of_Z_positive (z : Z) :
  0 < z ->
  (exists m e, -52 <= e /\ Double.of_Z z = S754_finite false m e)
  \/ Double.of_Z z = S754_infinity false.
Proof.
  intros Hz. destruct z as [|p|p]; try lia.
  unfold Double.of_Z, binary_normalize, binary_round, shl_align, fexp, emin,
    Double.prec, Double.emax.
  pose proof (Pos2Z.is_pos (digits2_pos p)) as Hd.
  destruct (Z.max (Z.pos (digits2_pos p) + 0 - 53) (3 - 1024 - 53) - 0) as [|q|q] eqn:Hn.
  - destruct (binary_round_aux_positive false p 0 loc_Exact ltac:(lia))
      as [(m & e & He & ->)| ->]; [left; exists m, e; split; [lia|reflexivity]|right; reflexivity].
  - destruct (binary_round_aux_positive false p 0 loc_Exact ltac:(lia))
      as [(m & e & He & ->)| ->]; [left; exists m, e; split; [lia|reflexivity]|right; reflexivity].
  - set (ez := Z.max (Z.pos (digits2_pos p) + 0 - 53) (3 - 1024 - 53)) in *.
    destruct (binary_round_aux_positive false (Pos.iter xO p q) ez loc_Exact ltac:(lia))
      as [(m & e & He & ->)| ->]; [left; exists m, e; split; [lia|reflexivity]|right; reflexivity].
Qed.

End Rounding.

(** A server that received nothing is reported at exactly +0.0, for every
    payload size and every simulation time other than 0. *)
Lemma throughput_zero (P T : Z) :
  0 < T -> throughput 0 P T = S754_zero false.
Proof.
  intros HT. unfold throughput.
  change (Uint.mul32 (Uint.mul32 0 P) 8) with 0.
  change (Double.of_Z 0) with (S754_zero false).
  change (Double.of_Z 1000000) with (S754_finite false 8589934592000000 (-33)).
  destruct (Rounding.of_Z_positive T HT) as [(m & e & He & ->)| ->].
  - unfold Double.div, Double.mul, Double.prec, Double.emax. cbn [SFmul xorb].
    destruct (Rounding.binary_round_aux_positive false (m * 8589934592000000) (e + -33)
                loc_Exact ltac:(lia)) as [(m' & e' & _ & ->)| ->]; reflexivity.
  - reflexivity.
Qed.

(** With a simulation time of 0 the same read gives 0/0, a NaN. *)
Lemma throughput_zero_time (P : Z) : throughput 0 P 0 = S754_nan.
Proof.
  unfold throughput.
  change (Uint.mul32 (Uint.mul32 0 P) 8) with 0. reflexivity.
Qed.



(** ** Topology *)

(** C3: in every configuration the access point is placed at (5,5) and the
    stations at (5,10), (0,5), (5,0) and (10,5); the visibility range R is
    5; each station is at distance 5 = R from the access point; the two
    pairs of opposite stations are at distance 10 = 2R, which is greater
    than R and out of range, so the stations of each such pair are hidden
    from each other. *)
Theorem C3_compass_points (k : nat) (cfg : Config) :
  let r := run (network k cfg) initial in
  let R := MaxRange in
  defaults r.2 !! "ns3::RangePropagationLossModel::MaxRange" = Some (DoubleValue (Double.of_Z 5)) /\
  GetPosition r.2 <$> (wifiApNode r.1 ++ wifiStaNodes r.1)
  = [Some (vec 5 5 0); Some (vec 5 10 0); Some (vec 0 5 0); Some (vec 5 0 0);
     Some (vec 10 5 0)] /\
  (exists ap sta1 sta2 sta3 sta4,
     wifiApNode r.1 = [ap] /\ wifiStaNodes r.1 = [sta1; sta2; sta3; sta4] /\
     Forall (fun sta => distance r.2 ap sta = Some R) [sta1; sta2; sta3; sta4] /\
     distance r.2 sta1 sta3 = Some (Double.mul (Double.of_Z 2) R) /\
     distance r.2 sta2 sta4 = Some (Double.mul (Double.of_Z 2) R)) /\
  Double.ltb R (Double.mul (Double.of_Z 2) R) = true /\
  in_range R = true /\
  in_range (Double.mul (Double.of_Z 2) R) = false.
Proof.
  symbolic cfg.
  all: cbv zeta.
  all: split; [vm_compute; reflexivity|].
  all: split; [vm_compute; reflexivity|].
  all: split;
    [exists 4%nat, 0%nat, 1%nat, 2%nat, 3%nat;
     repeat first [apply conj | apply Forall_cons | apply Forall_nil];
     vm_compute; reflexivity|].
  all: vm_compute; repeat split.
Qed.

(** ** The applications each program installs *)

Lemma schedule_lookup (s : State) (h : nat) tid node start stop :
  schedule s !! h = Some (tid, node, start, stop) ->
  exists a, apps s !! h = Some a /\ app_tid a = tid /\ app_node a = node /\
            app_start a = start /\ app_stop a = stop.
Proof.
  unfold schedule. rewrite list_lookup_fmap. intros H.
  apply fmap_Some in H as (a & Ha & E). exists a. inversion E. auto.
Qed.

Lemma simple_schedule (cfg : Config) :
  schedule (run (SimpleHt.build cfg) initial).2
  = (let stop := Seconds (Uint.add64 (simulationTime cfg) 1) in
     [(UdpServer, Some 4%nat, Seconds 0, stop);
      (UdpClient, Some 0%nat, Seconds 1, stop);
      (UdpClient, Some 1%nat, Seconds 1, stop);
      (UdpClient, Some 2%nat, Seconds 1, stop);
      (UdpClient, Some 3%nat, Seconds 1, stop);
      (UdpEchoServer, None, Seconds 1, Seconds 10);
      (UdpEchoServer, None, Seconds 1, Seconds 10);
      (UdpEchoServer, None, Seconds 1, Seconds 10);
      (UdpEchoServer, None, Seconds 1, Seconds 10);
      (UdpEchoClient, Some 1%nat, Seconds 1, Seconds 10);
      (UdpEchoClient, Some 2%nat, Seconds 1, Seconds 10);
      (UdpEchoClient, Some 3%nat, Seconds 1, Seconds 10);
      (UdpEchoClient, None, Seconds 1, Seconds 10)]).
Proof. symbolic cfg; vm_compute; reflexivity. Qed.

Lemma hidden2_schedule (cfg : Config) (nPackets : Z) :
  schedule (run (Hidden2.build cfg nPackets) initial).2
  = (let stop := Seconds (Uint.add64 (simulationTime cfg) 1) in
     replicate 4 (UdpServer, Some 4%nat, Seconds 0, stop)
     ++ ((fun n => (UdpClient, Some n, Seconds 1, stop)) <$> [0; 1; 2; 3]%nat)
     ++ ((fun n => (UdpClient, Some n, Seconds 1, stop)) <$> [0; 1; 2; 3]%nat)
     ++ ((fun n => (UdpClient, Some n, Seconds 1, stop)) <$> [0; 1; 2; 3]%nat)
     ++ ((fun n => (UdpClient, Some n, Seconds 1, stop)) <$> [0; 1; 2; 3]%nat)).
Proof. symbolic cfg; vm_compute; reflexivity. Qed.

Lemma hidden3_schedule (cfg : Config) (nPackets : Z) :
  schedule (run (Hidden3.build cfg nPackets) initial).2
  = (let stop := Seconds (Uint.add64 (simulationTime cfg) 1) in
     [(UdpEchoServer, Some 4%nat, Seconds 0, stop);
      (UdpEchoServer, Some 4%nat, Seconds 0, stop);
      (UdpEchoServer, Some 4%nat, Seconds 1, stop);
      (UdpEchoServer, Some 4%nat, Seconds 1, stop);
      (UdpEchoClient, Some 0%nat, Seconds 1, stop);
      (UdpEchoClient, Some 1%nat, Seconds 2, stop);
      (UdpEchoClient, Some 2%nat, Seconds 3, stop);
      (UdpEchoClient, Some 3%nat, Seconds 4, stop)]).
Proof. symbolic cfg; vm_compute; reflexivity. Qed.

Lemma simple_containers (cfg : Config) :
  let r := run (SimpleHt.build cfg) initial in
  wifiApNode (SimpleHt.net r.1) = [4%nat] /\
  ApInterface (SimpleHt.net r.1) = [ipv4 192 168 1 5] /\
  SimpleHt.serverApps1 r.1 = [5%nat] /\ SimpleHt.serverApps2 r.1 = [6%nat] /\
  SimpleHt.serverApps3 r.1 = [7%nat] /\ SimpleHt.serverApps4 r.1 = [8%nat].
Proof. symbolic cfg; vm_compute; repeat split. Qed.

Lemma hidden2_containers (cfg : Config) (nPackets : Z) :
  let r := run (Hidden2.build cfg nPackets) initial in
  ApInterface (Hidden2.net r.1) = [ipv4 192 168 1 5] /\
  Hidden2.serverApp1 r.1 = [0%nat] /\ Hidden2.serverApp2 r.1 = [1%nat] /\
  Hidden2.serverApp3 r.1 = [2%nat] /\ Hidden2.serverApp4 r.1 = [3%nat].
Proof. symbolic cfg; vm_compute; repeat split. Qed.

Lemma simple_echo_servers (cfg : Config) :
  let r := run (SimpleHt.build cfg) initial in
  Forall (fun c => exists h a,
            App_Get c 0 = Some h /\ apps r.2 !! h = Some a /\
            app_tid a = UdpEchoServer /\ app_node a = None)
         [SimpleHt.serverApps1 r.1; SimpleHt.serverApps2 r.1;
          SimpleHt.serverApps3 r.1; SimpleHt.serverApps4 r.1].
Proof.
  intros r. subst r.
  destruct (simple_containers cfg) as (_ & _ & -> & -> & -> & ->).
  repeat constructor.
  all: match goal with |- exists h a, App_Get [?n] 0 = _ /\ _ =>
         assert (L : schedule (run (SimpleHt.build cfg) initial).2 !! n
                     = Some (UdpEchoServer, None, Seconds 1, Seconds 10))
           by (rewrite simple_schedule; reflexivity);
         apply schedule_lookup in L as (a & ? & ? & ? & _);
         exists n, a; auto
       end.
Qed.

(** C10: whatever the parameters, the access-point container of the first
    program holds exactly one node, [Get] on it has no node at the indices
    1, 2, 3 and 4, and each of the four echo servers is installed through
    one of these lookups: it ends up on no node. *)
Theorem C10_ap_container_indexed_out_of_range (cfg : Config) :
  let r := run (SimpleHt.build cfg) initial in
  let ap := wifiApNode (SimpleHt.net r.1) in
  length ap = 1%nat /\
  Forall (fun i => ~ (i < length ap)%nat /\ Get ap i = None) [1; 2; 3; 4]%nat /\
  Forall (fun c => exists h a,
            App_Get c 0 = Some h /\ apps r.2 !! h = Some a /\
            app_tid a = UdpEchoServer /\ app_node a = None)
         [SimpleHt.serverApps1 r.1; SimpleHt.serverApps2 r.1;
          SimpleHt.serverApps3 r.1; SimpleHt.serverApps4 r.1].
Proof.
  intros r ap. split; [|split].
  - subst ap r. destruct (simple_containers cfg) as (-> & _). reflexivity.
  - subst ap r. destruct (simple_containers cfg) as (-> & _).
    repeat constructor; simpl; lia.
  - apply simple_echo_servers.
Qed.




Lemma hidden3_RemoteAddress (cfg : Config) (nPackets : Z) :
  attribute "RemoteAddress" (run (Hidden3.build cfg nPackets) initial).2
  = replicate 4 None ++ replicate 4 (Some (AddressValue (Some (ipv4 192 168 1 5)))).
Proof. symbolic cfg; vm_compute; reflexivity. Qed.

(** ** Reporting *)

Lemma cast_other (s : State) (h : nat) (a : Application) :
  apps s !! h = Some a -> app_tid a <> UdpServer ->
  DynamicCast_UdpServer s (Some h) = None.
Proof.
  intros Ha Ht. unfold DynamicCast_UdpServer. cbn. rewrite Ha. cbn.
  destruct (decide (app_tid a = UdpServer)); [contradiction|reflexivity].
Qed.

Lemma cast_server (s : State) (h : nat) (a : Application) :
  apps s !! h = Some a -> app_tid a = UdpServer ->
  DynamicCast_UdpServer s (Some h) = Some h.
Proof.
  intros Ha Ht. unfold DynamicCast_UdpServer. cbn. rewrite Ha. cbn.
  destruct (decide (app_tid a = UdpServer)); [reflexivity|contradiction].
Qed.

Lemma report_null fmt cfg s received prefix c blocks :
  DynamicCast_UdpServer s (App_Get c 0) = None ->
  report fmt cfg s received ((prefix, c) :: blocks) = mkOutcome [] None.
Proof. intros H. cbn. rewrite H. reflexivity. Qed.

Lemma report_line fmt cfg s received prefix c blocks h :
  DynamicCast_UdpServer s (App_Get c 0) = Some h ->
  report fmt cfg s received ((prefix, c) :: blocks)
  = let t := throughput (Uint.wrap 32 (received h)) (payloadSize cfg) (simulationTime cfg) in
    let o := report fmt cfg s received blocks in
    mkOutcome (Stdout (prefix +:+ fmt t +:+ " Mbit/s") :: events o) (exit_status o).
Proof. intros H. cbn. rewrite H. reflexivity. Qed.

(** The sibling program hiddenstations2.cc declares [UdpServer]s for the
    counters it reads: given the applications that script declares, its
    reporting code gets through its four blocks, one line per server
    application in the order of declaration, and returns 0. *)
Lemma hidden2_report fmt cfg nPackets (received : nat -> Z) :
  let r := run (Hidden2.build cfg nPackets) initial in
  let t h := throughput (Uint.wrap 32 (received h)) (payloadSize cfg) (simulationTime cfg) in
  report fmt cfg r.2 received (Hidden2.blocks r.1)
  = mkOutcome [Stdout (" 1Throughput: " +:+ fmt (t 0%nat) +:+ " Mbit/s");
               Stdout ("2 Throughput: " +:+ fmt (t 1%nat) +:+ " Mbit/s");
               Stdout ("3 Throughput: " +:+ fmt (t 2%nat) +:+ " Mbit/s");
               Stdout ("4 Throughput: " +:+ fmt (t 3%nat) +:+ " Mbit/s")] (Some 0).
Proof.
  intros r t.
  assert (C : forall h, (h < 4)%nat -> DynamicCast_UdpServer r.2 (Some h) = Some h).
  { intros h Hh.
    assert (L : schedule r.2 !! h
                = Some (UdpServer, Some 4%nat, Seconds 0,
                        Seconds (Uint.add64 (simulationTime cfg) 1))).
    { subst r. rewrite hidden2_schedule.
      do 4 (destruct h as [|h]; [reflexivity|]). lia. }
    apply schedule_lookup in L as (a & Ha & Ht & _).
    apply (cast_server _ _ a Ha Ht). }
  destruct (hidden2_containers cfg nPackets) as (_ & E1 & E2 & E3 & E4).
  fold r in E1, E2, E3, E4.
  unfold Hidden2.blocks. rewrite E1, E2, E3, E4.
  rewrite (report_line _ _ _ _ _ _ _ 0%nat) by (apply C; lia).
  rewrite (report_line _ _ _ _ _ _ _ 1%nat) by (apply C; lia).
  rewrite (report_line _ _ _ _ _ _ _ 2%nat) by (apply C; lia).
  rewrite (report_line _ _ _ _ _ _ _ 3%nat) by (apply C; lia).
  reflexivity.
Qed.

(** ** Calls through missing handles *)

Lemma simple_faults (cfg : Config) :
  faults (run (SimpleHt.build cfg) initial).2
  = [GetAddress_out_of_range 1 1;
     Install_on_null UdpEchoServer; Install_on_null UdpEchoServer;
     Install_on_null UdpEchoServer; Install_on_null UdpEchoServer;
     GetAddress_out_of_range 4 4; Install_on_null UdpEchoClient].
Proof. symbolic cfg; vm_compute; reflexivity. Qed.

Lemma hidden2_faults (cfg : Config) (nPackets : Z) :
  faults (run (Hidden2.build cfg nPackets) initial).2
  = [GetAddress_out_of_range 1 1; GetAddress_out_of_range 2 1;
     GetAddress_out_of_range 3 1; GetAddress_out_of_range 4 1;
     EnablePcap_on_null "SimpleHtHiddenStations_Sta5"].
Proof. symbolic cfg; vm_compute; reflexivity. Qed.

Lemma hidden3_faults (cfg : Config) (nPackets : Z) :
  faults (run (Hidden3.build cfg nPackets) initial).2 = [].
Proof. symbolic cfg; vm_compute; reflexivity. Qed.

Lemma simple_main fmt engine cfg :
  SimpleHt.main fmt engine cfg = mkOutcome [] None.
Proof.
  unfold SimpleHt.main. pose proof (simple_faults cfg) as F.
  destruct (run _ _) as [sc s]. cbn [snd] in F.
  unfold unless_fault. rewrite F. reflexivity.
Qed.

Lemma hidden2_main fmt engine cfg nPackets :
  Hidden2.main fmt engine cfg nPackets = mkOutcome [] None.
Proof.
  unfold Hidden2.main. pose proof (hidden2_faults cfg nPackets) as F.
  destruct (run _ _) as [sc s]. cbn [snd] in F.
  unfold unless_fault. rewrite F. reflexivity.
Qed.

Lemma hidden3_main show_size show_ipv4 rx cfg nPackets :
  Hidden3.main show_size show_ipv4 rx cfg nPackets
  = let r := run (Hidden3.build cfg nPackets) initial in
    mkOutcome ([SimulatorStop (horizon cfg); SimulatorRun]
                 ++ (rx r.2 (horizon cfg) ≫= Hidden3.RxTrace show_size show_ipv4)
                 ++ [SimulatorDestroy]) (Some 0).
Proof.
  unfold Hidden3.main. pose proof (hidden3_faults cfg nPackets) as F.
  destruct (run _ _) as [sc s]. cbn [snd] in F.
  unfold unless_fault. rewrite F. reflexivity.
Qed.


(** C9: in the first program, each container whose counter is read holds an
    application made by the echo-server helper, a [UdpEchoServer]; the cast
    to [UdpServer] gives the null handle and the read through it has no
    value.  The reporting code therefore ends in its first block, before
    any line is printed, whatever the simulator has left behind, and no run
    of the program prints a line or returns. *)
Theorem C9_counter_read_through_null (fmt : Double.t -> string) (engine : Engine)
    (cfg : Config) :
  let r := run (SimpleHt.build cfg) initial in
  let received := engine r.2 (horizon cfg) in
  Forall (fun c =>
            (exists h a, App_Get c 0 = Some h /\ apps r.2 !! h = Some a /\
                         app_tid a = UdpEchoServer) /\
            DynamicCast_UdpServer r.2 (App_Get c 0) = None /\
            GetReceived received (DynamicCast_UdpServer r.2 (App_Get c 0)) = None)
         (snd <$> SimpleHt.blocks r.1) /\
  report fmt cfg r.2 received (SimpleHt.blocks r.1) = mkOutcome [] None /\
  exit_status (SimpleHt.main fmt engine cfg) = None /\
  reported (SimpleHt.main fmt engine cfg) = [].
Proof.
  intros r received.
  assert (F : Forall (fun c =>
            (exists h a, App_Get c 0 = Some h /\ apps r.2 !! h = Some a /\
                         app_tid a = UdpEchoServer) /\
            DynamicCast_UdpServer r.2 (App_Get c 0) = None /\
            GetReceived received (DynamicCast_UdpServer r.2 (App_Get c 0)) = None)
         (snd <$> SimpleHt.blocks r.1)).
  { pose proof (simple_echo_servers cfg) as H. cbv zeta in H. fold r in H.
    unfold SimpleHt.blocks. cbn [fmap list_fmap snd].
    eapply Forall_impl; [exact H|].
    intros c (h & a & Hc & Ha & Ht & _). split; [eauto|].
    assert (D : DynamicCast_UdpServer r.2 (App_Get c 0) = None).
    { rewrite Hc. apply (cast_other _ _ a); [exact Ha|]. rewrite Ht. discriminate. }
    split; [exact D|]. rewrite D. reflexivity. }
  split; [exact F|].
  split.
  - unfold SimpleHt.blocks in *. cbn [fmap list_fmap snd] in F.
    apply Forall_cons in F as ((_ & D & _) & _).
    apply (report_null _ _ _ _ _ _ _ D).
  - rewrite simple_main. split; reflexivity.
Qed.

(** ** Validation *)

Lemma flow_at (s : State) (h : nat) tid node start stop :
  schedule s !! h = Some (tid, node, start, stop) ->
  tid = UdpClient \/ tid = UdpEchoClient ->
  exists a, apps s !! h = Some a /\ a ∈ flows s /\
            app_start a = start /\ app_stop a = stop.
Proof.
  intros H Ht. apply schedule_lookup in H as (a & Ha & Hta & _ & Hs & Hp).
  exists a. split; [exact Ha|]. split; [|auto].
  unfold flows. apply list_elem_of_filter. split.
  - unfold is_client. rewrite Hta. destruct Ht as [-> | ->]; reflexivity.
  - eapply list_elem_of_lookup_2; exact Ha.
Qed.








(** ** Start and stop times *)

Lemma flow_window (s : State) (a : Application) :
  a ∈ flows s ->
  (app_tid a = UdpClient \/ app_tid a = UdpEchoClient) /\
  (app_tid a, app_node a, app_start a, app_stop a) ∈ schedule s.
Proof.
  unfold flows, schedule. intros H. apply list_elem_of_filter in H as (Hc & Ha).
  split.
  - unfold is_client in Hc. destruct (app_tid a); auto; discriminate.
  - apply (list_elem_of_fmap_2 (fun a => (app_tid a, app_node a, app_start a, app_stop a))).
    exact Ha.
Qed.

(** C6, as stated, fails: under the default parameters the horizon is 11 s
    and the saturating flows of the first program stop at 11 s, so the
    horizon is not strictly greater than every stop-offset. *)
Lemma C6_horizon_equals_stop :
  let s := (run (SimpleHt.build default_config) initial).2 in
  horizon default_config = Seconds 11 /\
  Exists (fun a => app_stop a = Seconds 11 /\ ~ app_stop a < horizon default_config)
         (flows s).
Proof.
  cbv zeta. split; [reflexivity|].
  assert (S : schedule (run (SimpleHt.build default_config) initial).2 !! 1%nat
              = Some (UdpClient, Some 0%nat, Seconds 1, Seconds 11))
    by (rewrite simple_schedule; reflexivity).
  apply flow_at in S as (a & _ & Hf & _ & Hp); [|auto].
  apply Exists_exists. exists a. split; [exact Hf|].
  rewrite Hp. split; [reflexivity|]. vm_compute. discriminate.
Qed.

Ltac window H :=
  repeat (apply elem_of_cons in H as [H|H]);
  [ inversion H; subst.. | inversion H ].

(** C6, amended: the horizon is [Seconds (simulationTime + 1)], the very
    time at which the saturating flows are stopped, so it is not strictly
    greater than every stop-offset.  When the simulation time is at least
    9 s (and the horizon fits the 64-bit nanosecond clock), every flow of
    the three programs has start < stop and stop <= horizon. *)
Theorem C6_flow_windows (cfg : Config) (nPackets : Z) :
  9 <= simulationTime cfg -> representable cfg ->
  let within (s : State) :=
    Forall (fun a => app_start a < app_stop a /\ app_stop a <= horizon cfg) (flows s) in
  within (run (SimpleHt.build cfg) initial).2 /\
  within (run (Hidden2.build cfg nPackets) initial).2 /\
  within (run (Hidden3.build cfg nPackets) initial).2 /\
  Exists (fun a => app_stop a = horizon cfg) (flows (run (SimpleHt.build cfg) initial).2).
Proof.
  intros H9 Hr. unfold representable in Hr. cbv zeta.
  assert (Hh : horizon cfg = (simulationTime cfg + 1) * 1000000000).
  { unfold horizon, Seconds, Uint.add64, Uint.wrap. rewrite Z.mod_small; lia. }
  assert (Hs : Seconds (Uint.add64 (simulationTime cfg) 1) = horizon cfg) by reflexivity.
  repeat split.
  - apply Forall_forall. intros a Ha. apply flow_window in Ha as (Ht & Ha).
    rewrite simple_schedule in Ha. cbv zeta in Ha. rewrite Hs in Ha.
    window Ha; unfold Seconds in *; try lia; destruct Ht; congruence.
  - apply Forall_forall. intros a Ha. apply flow_window in Ha as (Ht & Ha).
    rewrite hidden2_schedule in Ha. cbv zeta in Ha. rewrite Hs in Ha.
    cbn [replicate fmap list_fmap app] in Ha.
    window Ha; unfold Seconds in *; try lia; destruct Ht; congruence.
  - apply Forall_forall. intros a Ha. apply flow_window in Ha as (Ht & Ha).
    rewrite hidden3_schedule in Ha. cbv zeta in Ha. rewrite Hs in Ha.
    window Ha; unfold Seconds in *; try lia; destruct Ht; congruence.
  - assert (S : schedule (run (SimpleHt.build cfg) initial).2 !! 1%nat
                = Some (UdpClient, Some 0%nat, Seconds 1, horizon cfg))
      by (rewrite simple_schedule; reflexivity).
    apply flow_at in S as (a & _ & Hf & _ & Hp); [|auto].
    apply Exists_exists. exists a. auto.
Qed.

Lemma C6_flow_windows_default :
  Forall (fun a => app_start a < app_stop a /\ app_stop a <= Seconds 11)
         (flows (run (SimpleHt.build default_config) initial).2).
Proof.
  assert (H9 : 9 <= simulationTime default_config) by (vm_compute; congruence).
  assert (Hr : representable default_config) by (vm_compute; congruence).
  exact (proj1 (C6_flow_windows default_config 0 H9 Hr)).
Defined.

(** ** Bounded request/response flows *)

Module EchoFacts.
Import BoundedEcho.

Lemma inv_init (f : Flow) : inv f (init f).
Proof.
  unfold inv, init; cbn. repeat split; try constructor; try lia.
  all: intros n H; inversion H.
Qed.

Lemma inv_exec (f : Flow) (a : Action) (s s' : St) :
  inv f s -> exec f a s = Some s' -> inv f s'.
Proof.
  intros (Hk & Hnd & Hlt & Hrep & Hret & Hsub) E.
  destruct a as [|i|i|t]; cbn in E.
  - (* Send *)
    destruct (decide _) as [[Hb _]|]; [|discriminate]. inversion E; subst; clear E.
    unfold inv; cbn. split; [lia|]. split; [|split; [|auto]].
    + rewrite <- (assoc_L (++)). apply NoDup_app in Hnd as (Hr & Hd & Hdl).
      apply NoDup_app. split; [exact Hr|]. split.
      * intros n Hn Hin. apply elem_of_app in Hin as [Hin|Hin].
        -- apply list_elem_of_singleton in Hin. subst n.
           assert (sent s < sent s)%nat; [|lia].
           apply Hlt. apply elem_of_app. auto.
        -- exact (Hd n Hn Hin).
      * cbn. apply NoDup_cons. split; [|exact Hdl].
        intros Hin. assert (sent s < sent s)%nat; [|lia].
        apply Hlt. apply elem_of_app. auto.
    + intros n Hin. rewrite <- (assoc_L (++)) in Hin.
      apply elem_of_app in Hin as [Hin|Hin].
      * assert (n < sent s)%nat; [|lia]. apply Hlt, elem_of_app; auto.
      * cbn in Hin. apply elem_of_cons in Hin as [->|Hin]; [lia|].
        assert (n < sent s)%nat; [|lia]. apply Hlt, elem_of_app; auto.
  - (* Deliver *)
    destruct (requests s !! i) as [n|] eqn:Hi; [|discriminate].
    cbn in E. inversion E; subst; clear E.
    assert (P : delete i (requests s) ++ delivered s ++ [n]
                ≡ₚ requests s ++ delivered s).
    { rewrite (delete_Permutation (requests s) i n Hi) at 2.
      cbn. rewrite (Permutation_app_comm (delivered s) [n]). cbn.
      symmetry. apply Permutation_middle. }
    unfold inv; cbn. split; [exact Hk|]. split; [|split; [|split; [|auto]]].
    + rewrite P. exact Hnd.
    + intros m Hm. rewrite P in Hm. auto.
    + rewrite Hrep. reflexivity.
    + split; [exact Hret|]. intros m Hm. apply elem_of_app. left. auto.
  - (* Return *)
    destruct (replies s !! i) as [n|] eqn:Hi; [|discriminate]. cbn in E.
    destruct (decide (n ∈ returned s)) as [|Hn]; [discriminate|].
    inversion E; subst; clear E.
    unfold inv; cbn. repeat split; auto.
    + apply NoDup_app. split; [exact Hret|]. split.
      * intros m Hm Hin. apply list_elem_of_singleton in Hin. subst m. contradiction.
      * apply NoDup_singleton.
    + intros m Hm. apply elem_of_app in Hm as [Hm|Hm]; [auto|].
      apply list_elem_of_singleton in Hm. subst m.
      eapply list_elem_of_lookup_2; exact Hi.
  - (* Tick *)
    destruct (decide _); [|discriminate]. inversion E; subst; clear E.
    unfold inv; cbn. auto 10.
Qed.

Lemma inv_execs (f : Flow) (l : list Action) (s s' : St) :
  inv f s -> execs f l s = Some s' -> inv f s'.
Proof.
  revert s. induction l as [|a l IH]; intros s Hs E; cbn in E.
  - inversion E; subst. exact Hs.
  - destruct (exec f a s) as [s1|] eqn:E1; [|discriminate]. cbn in E.
    apply (IH s1); [|exact E]. eapply inv_exec; eauto.
Qed.

Lemma inv_bound (f : Flow) (s : St) :
  inv f s -> (length (delivered s) <= budget f)%nat /\ NoDup (delivered s).
Proof.
  intros (Hk & Hnd & Hlt & _).
  apply NoDup_app in Hnd as (_ & _ & Hd). split; [|exact Hd].
  assert (L : (length (delivered s) <= length (seq 0 (sent s)))%nat).
  { apply submseteq_length, NoDup_submseteq; [exact Hd|].
    intros n Hn. apply elem_of_seq. split; [lia|].
    cbn. apply Hlt, elem_of_app. auto. }
  rewrite length_seq in L. lia.
Qed.

End EchoFacts.

(** C7: along every execution of a bounded request/response flow with
    packet budget K, at most K requests have been delivered, no request is
    delivered twice, the receiver has sent one reply for each delivered
    request and no other, and the replies handed back to the sender are
    among them, each at most once. *)
Theorem C7_bounded_echo (f : BoundedEcho.Flow) (l : list BoundedEcho.Action)
    (s : BoundedEcho.St) :
  BoundedEcho.execs f l (BoundedEcho.init f) = Some s ->
  (length (BoundedEcho.delivered s) <= BoundedEcho.budget f)%nat /\
  NoDup (BoundedEcho.delivered s) /\
  BoundedEcho.replies s = BoundedEcho.delivered s /\
  NoDup (BoundedEcho.returned s) /\
  (forall n, n ∈ BoundedEcho.returned s -> n ∈ BoundedEcho.replies s).
Proof.
  intros E.
  assert (I : BoundedEcho.inv f s)
    by (eapply EchoFacts.inv_execs; [apply EchoFacts.inv_init|exact E]).
  destruct (EchoFacts.inv_bound f s I) as (Hb & Hd).
  destruct I as (_ & _ & _ & Hrep & Hret & Hsub). auto.
Qed.

(** The echo clients of the first program ask for one packet each, those of
    hiddenstations3.cc for three ([Config::Set] after the installation). *)
Lemma simple_echo_flows (cfg : Config) :
  BoundedEcho.of_application <$> apps (run (SimpleHt.build cfg) initial).2
  = replicate 9 None
    ++ replicate 4 (Some (BoundedEcho.mkFlow 1 (Seconds 1) (Seconds 10))).
Proof. symbolic cfg; vm_compute; reflexivity. Qed.

Lemma hidden3_echo_flows (cfg : Config) :
  BoundedEcho.of_application <$> apps (run (Hidden3.build cfg 0) initial).2
  = (let stop := Seconds (Uint.add64 (simulationTime cfg) 1) in
     replicate 4 None
     ++ [Some (BoundedEcho.mkFlow 3 (Seconds 1) stop);
         Some (BoundedEcho.mkFlow 3 (Seconds 2) stop);
         Some (BoundedEcho.mkFlow 3 (Seconds 3) stop);
         Some (BoundedEcho.mkFlow 3 (Seconds 4) stop)]).
Proof. symbolic cfg; vm_compute; reflexivity. Qed.

Lemma C7_bounded_echo_one_packet :
  let f := BoundedEcho.mkFlow 1 (Seconds 1) (Seconds 10) in
  let l := [BoundedEcho.Send; BoundedEcho.Tick (Seconds 2);
            BoundedEcho.Deliver 0; BoundedEcho.Return 0] in
  BoundedEcho.of_application <$> apps (run (SimpleHt.build default_config) initial).2 !! 9%nat
  = Some (Some f) /\
  BoundedEcho.execs f l (BoundedEcho.init f)
  = Some (BoundedEcho.mkSt (Seconds 2) 1 [] [0%nat] [0%nat] [0%nat]) /\
  (length [0%nat] <= 1)%nat /\ NoDup [0%nat].
Proof.
  cbv zeta. split; [vm_compute; reflexivity|].
  assert (E : BoundedEcho.execs (BoundedEcho.mkFlow 1 (Seconds 1) (Seconds 10))
                [BoundedEcho.Send; BoundedEcho.Tick (Seconds 2);
                 BoundedEcho.Deliver 0; BoundedEcho.Return 0]
                (BoundedEcho.init (BoundedEcho.mkFlow 1 (Seconds 1) (Seconds 10)))
              = Some (BoundedEcho.mkSt (Seconds 2) 1 [] [0%nat] [0%nat] [0%nat]))
    by (vm_compute; reflexivity).
  split; [exact E|].
  destruct (C7_bounded_echo _ _ _ E) as (Hb & Hd & _). split; [exact Hb|exact Hd].
Defined.

(** * Further properties of the programs *)

Import Reach.

(** Evaluation of the build of any of the four programs on an arbitrary
    configuration. *)
Ltac evaluate cfg :=
  destruct cfg as [P T U rts];
  unfold SimpleHt.build, SimpleHt2.build, Hidden2.build, Hidden3.build, network;
  cbn [payloadSize simulationTime nMpdus enableRts];
  generalize (Common.maxAmpduSize U P); intros ampdu;
  try (generalize (Seconds (Uint.add64 T 1)); intros stop);
  destruct rts.

(** ** Throughput at the edges *)

(** X1: for a simulation time other than 0, the reported throughput is
    exactly +0.0 whenever the 32-bit product of packet count, payload size
    and 8 is 0: when nothing was received, and also when the product has
    wrapped to 0. *)
Theorem X1_throughput_zero_bits (c P T : Z) :
  0 < T -> Uint.mul32 (Uint.mul32 c P) 8 = 0 ->
  throughput c P T = S754_zero false.
Proof.
  intros HT H0. rewrite <- (throughput_zero P T HT).
  unfold throughput. rewrite H0.
  change (Uint.mul32 (Uint.mul32 0 P) 8) with 0. reflexivity.
Qed.

Lemma X1_throughput_zero_bits_wrapped :
  Uint.mul32 (Uint.mul32 536870912 1472) 8 = 0 /\
  throughput 536870912 1472 10 = S754_zero false /\
  throughput 0 1472 10 = S754_zero false.
Proof.
  assert (H : Uint.mul32 (Uint.mul32 536870912 1472) 8 = 0) by (vm_compute; reflexivity).
  split; [exact H|]. split.
  - apply X1_throughput_zero_bits; [lia|exact H].
  - apply X1_throughput_zero_bits; [lia|vm_compute; reflexivity].
Defined.

(** X2: with a simulation time of 0 the division is by zero: the reported
    throughput is a NaN when the 32-bit product is 0 and +infinity
    otherwise; it is never a finite number. *)
Theorem X2_throughput_zero_time (c P : Z) :
  throughput c P 0
  = if Uint.mul32 (Uint.mul32 c P) 8 =? 0 then S754_nan else S754_infinity false.
Proof.
  unfold throughput.
  change (Double.mul (Double.of_Z 0) (Double.of_Z 1000000)) with (S754_zero false).
  pose proof (Z.mod_pos_bound (Uint.mul32 c P * 8) (2 ^ 32) ltac:(lia)) as Hb.
  fold (Uint.wrap 32 (Uint.mul32 c P * 8)) in Hb.
  fold (Uint.mul32 (Uint.mul32 c P) 8) in Hb.
  destruct (Z.eqb_spec (Uint.mul32 (Uint.mul32 c P) 8) 0) as [->|Hn]; [reflexivity|].
  destruct (Rounding.of_Z_positive (Uint.mul32 (Uint.mul32 c P) 8) ltac:(lia))
    as [(m & e & _ & ->)| ->]; reflexivity.
Qed.

(** ** The reported throughput is a finite, non-negative number *)

Module Finite.

Lemma digits2_upper (p : positive) : Z.pos p < 2 ^ Z.pos (digits2_pos p).
Proof.
  induction p as [p IH|p IH|]; cbn [digits2_pos]; [| |cbn; lia].
  all: rewrite Pos2Z.inj_succ, Z.pow_succ_r by lia; lia.
Qed.

Lemma digits2_le (p : positive) (k : Z) :
  0 <= k -> Z.pos p < 2 ^ k -> Z.pos (digits2_pos p) <= k.
Proof.
  intros Hk Hp. destruct (Z_lt_le_dec k (Z.pos (digits2_pos p))) as [Hlt|]; [|lia].
  pose proof (Rounding.digits2_lower p) as Hl.
  pose proof (Z.pow_le_mono_r 2 k (Z.pos (digits2_pos p) - 1) ltac:(lia) ltac:(lia)).
  lia.
Qed.

(** Shifting a positive mantissa to its format exponent leaves at most 53
    bits and an exponent that is the old one or the format's. *)
Lemma shr_fexp_bounds (p : positive) (e : Z) (l : location) :
  -1074 <= e ->
  0 < shr_m (shr_fexp 53 1024 (Z.pos p) e l).1 < 2 ^ 53 /\
  e <= (shr_fexp 53 1024 (Z.pos p) e l).2 <= Z.max e (Z.pos (digits2_pos p) + e - 53).
Proof.
  intros He. destruct (Rounding.shr_fexp_positive p e l He) as (Hpos & Hle).
  revert Hpos Hle. unfold shr_fexp, shr, fexp, emin. cbn [Zdigits2].
  assert (M : shr_m (shr_record_of_loc (Z.pos p) l) = Z.pos p)
    by (destruct l as [|[]]; reflexivity).
  pose proof (digits2_upper p) as Hu.
  pose proof (Pos2Z.is_pos (digits2_pos p)) as Hd.
  destruct (Z.max (Z.pos (digits2_pos p) + e - 53) (3 - 1024 - 53) - e) as [|q|q] eqn:Hn;
    cbn [fst snd]; rewrite ?M; intros Hpos Hle.
  - assert (Z.pos (digits2_pos p) <= 53) by lia.
    pose proof (Z.pow_le_mono_r 2 (Z.pos (digits2_pos p)) 53 ltac:(lia) ltac:(lia)). lia.
  - assert (Hq : Z.pos (digits2_pos p) = Z.pos q + 53) by lia.
    split; [|lia]. split; [exact Hpos|].
    rewrite Rounding.iter_shr_1 by (rewrite M; lia). rewrite M.
    pose proof (Z.pow_pos_nonneg 2 (Z.pos q) ltac:(lia) ltac:(lia)).
    apply Z.div_lt_upper_bound; [lia|].
    rewrite <- Z.pow_add_r by lia. rewrite <- Hq. exact Hu.
  - assert (Z.pos (digits2_pos p) <= 53) by lia.
    pose proof (Z.pow_le_mono_r 2 (Z.pos (digits2_pos p)) 53 ltac:(lia) ltac:(lia)). lia.
Qed.

Lemma round_nearest_even_le (m : Z) (l : location) :
  m <= round_nearest_even m l <= m + 1.
Proof. destruct l as [|[]]; cbn; try destruct (Z.even m); lia. Qed.

(** Rounding a positive mantissa gives a finite number of the same sign
    when the exponent stays below the largest one. *)
Lemma binary_round_aux_finite (sx : bool) (p : positive) (e : Z) (l : location) :
  -1074 <= e ->
  Z.max e (Z.pos (digits2_pos p) + e - 53) + 1 <= 971 ->
  exists m' e',
    e <= e' <= Z.max e (Z.pos (digits2_pos p) + e - 53) + 1 /\
    Z.pos m' < 2 ^ 53 /\
    binary_round_aux 53 1024 sx (Z.pos p) e l = S754_finite sx m' e'.
Proof.
  intros He HE. unfold binary_round_aux.
  destruct (shr_fexp_bounds p e l He) as ((H1 & H1u) & H1e & H1E).
  destruct (shr_fexp 53 1024 (Z.pos p) e l) as [mrs' e'].
  cbn [fst snd] in H1, H1u, H1e, H1E.
  pose proof (round_nearest_even_le (shr_m mrs') (loc_of_shr_record mrs')) as Hr.
  destruct (round_nearest_even (shr_m mrs') (loc_of_shr_record mrs')) as [|q|q]; try lia.
  assert (Hq : Z.pos (digits2_pos q) <= 54).
  { apply digits2_le; [lia|]. change (2 ^ 54) with (2 * 2 ^ 53). lia. }
  destruct (shr_fexp_bounds q e' loc_Exact ltac:(lia)) as ((H3 & H3u) & H3e & H3E).
  destruct (shr_fexp 53 1024 (Z.pos q) e' loc_Exact) as [mrs'' e''].
  cbn [fst snd] in H3, H3u, H3e, H3E.
  destruct (shr_m mrs'') as [|m|m]; try lia.
  exists m, e''.
  change (IntDef.Z.sub 1024 53) with 971.
  rewrite (proj2 (Z.leb_le e'' 971) ltac:(lia)).
  split; [lia|]. split; [exact H3u|reflexivity].
Qed.

Lemma shr_fexp_zero (e : Z) (l : location) :
  -1074 <= e -> shr_fexp 53 1024 0 e l = (shr_record_of_loc 0 l, e).
Proof.
  intros He. unfold shr_fexp, shr, fexp, emin. cbn [Zdigits2].
  destruct (Z.max (0 + e - 53) (3 - 1024 - 53) - e) eqn:Hn; try reflexivity. lia.
Qed.

(** A zero mantissa rounds to a zero or to the smallest finite number. *)
Lemma binary_round_aux_zero (sx : bool) (e : Z) (l : location) :
  -1074 <= e <= 970 ->
  binary_round_aux 53 1024 sx 0 e l = S754_zero sx
  \/ exists m' e', binary_round_aux 53 1024 sx 0 e l = S754_finite sx m' e'.
Proof.
  intros He. unfold binary_round_aux. rewrite shr_fexp_zero by lia.
  assert (Z0 : (let '(mrs'', e'') := shr_fexp 53 1024 0 e loc_Exact in
                match shr_m mrs'' with
                | 0 => S754_zero sx
                | Z.pos m => if e'' <=? 1024 - 53 then S754_finite sx m e''
                             else S754_infinity sx
                | Z.neg _ => S754_nan
                end) = S754_zero sx)
    by (rewrite shr_fexp_zero by lia; reflexivity).
  destruct l as [|[]]; cbn [shr_record_of_loc shr_m loc_of_shr_record round_nearest_even
                            Z.even].
  1-3: left; exact Z0.
  right. change (0 + 1) with 1.
  destruct (shr_fexp_bounds 1 e loc_Exact ltac:(lia)) as ((H3 & H3u) & H3e & H3E).
  destruct (shr_fexp 53 1024 1 e loc_Exact) as [mrs'' e''].
  cbn [fst snd digits2_pos] in H3, H3u, H3e, H3E.
  destruct (shr_m mrs'') as [|m|m]; try lia.
  exists m, e''. change (IntDef.Z.sub 1024 53) with 971.
  rewrite (proj2 (Z.leb_le e'' 971) ltac:(lia)). reflexivity.
Qed.

Lemma iter_xO (p q : positive) : Z.pos (Pos.iter xO p q) = Z.pos p * 2 ^ Z.pos q.
Proof.
  induction q as [|q IH] using Pos.peano_ind.
  - cbn. lia.
  - rewrite Pos.iter_succ, Pos2Z.inj_xO, IH, Pos2Z.inj_succ, Z.pow_succ_r by lia. lia.
Qed.

(** A positive 64-bit integer converts to a positive finite [double]. *)
Lemma of_Z_finite (z : Z) :
  0 < z < 2 ^ 64 ->
  exists m e, -52 <= e <= 12 /\ Z.pos m < 2 ^ 53 /\ Double.of_Z z = S754_finite false m e.
Proof.
  intros Hz. destruct z as [|p|p]; try lia.
  unfold Double.of_Z, binary_normalize, binary_round, shl_align, fexp, emin,
    Double.prec, Double.emax.
  pose proof (Pos2Z.is_pos (digits2_pos p)) as Hd.
  pose proof (digits2_le p 64 ltac:(lia) ltac:(lia)) as Hd64.
  pose proof (digits2_upper p) as Hu.
  destruct (Z.max (Z.pos (digits2_pos p) + 0 - 53) (3 - 1024 - 53) - 0) as [|q|q] eqn:Hn.
  - destruct (binary_round_aux_finite false p 0 loc_Exact ltac:(lia) ltac:(lia))
      as (m & e & He & Hm & ->). exists m, e. split; [lia|]. split; [exact Hm|reflexivity].
  - destruct (binary_round_aux_finite false p 0 loc_Exact ltac:(lia) ltac:(lia))
      as (m & e & He & Hm & ->). exists m, e. split; [lia|]. split; [exact Hm|reflexivity].
  - set (ez := Z.max (Z.pos (digits2_pos p) + 0 - 53) (3 - 1024 - 53)) in *.
    assert (Hq : Z.pos q = 53 - Z.pos (digits2_pos p)) by lia.
    assert (Hs : Z.pos (digits2_pos (Pos.iter xO p q)) <= 53).
    { apply digits2_le; [lia|]. rewrite iter_xO.
      replace 53 with (Z.pos (digits2_pos p) + Z.pos q) by lia.
      rewrite Z.pow_add_r by lia.
      pose proof (Z.pow_pos_nonneg 2 (Z.pos q) ltac:(lia) ltac:(lia)). nia. }
    destruct (binary_round_aux_finite false (Pos.iter xO p q) ez loc_Exact
                ltac:(lia) ltac:(lia)) as (m & e & He & Hm & ->).
    exists m, e. split; [lia|]. split; [exact Hm|reflexivity].
Qed.

Lemma digits2_mul (p q : positive) (a b : Z) :
  0 <= a -> 0 <= b -> Z.pos p < 2 ^ a -> Z.pos q < 2 ^ b ->
  Z.pos (digits2_pos (p * q)) <= a + b.
Proof.
  intros Ha Hb Hp Hq. apply digits2_le; [lia|].
  rewrite Z.pow_add_r, Pos2Z.inj_mul by lia.
  apply Z.mul_lt_mono_nonneg; lia.
Qed.

(** The denominator [simulationTime * 1000000.0]. *)
Lemma denominator_finite (T : Z) :
  0 < T < 2 ^ 64 ->
  exists m e, -85 <= e <= 33 /\ Z.pos m < 2 ^ 53 /\
    Double.mul (Double.of_Z T) (Double.of_Z 1000000) = S754_finite false m e.
Proof.
  intros HT. destruct (of_Z_finite T HT) as (m & e & He & Hm & ->).
  change (Double.of_Z 1000000) with (S754_finite false 8589934592000000 (-33)).
  unfold Double.mul, Double.prec, Double.emax. cbn [SFmul xorb].
  assert (Hd : Z.pos (digits2_pos (m * 8589934592000000)) <= 53 + 53)
    by (apply digits2_mul; [lia|lia|exact Hm|reflexivity]).
  destruct (binary_round_aux_finite false (m * 8589934592000000) (e + -33) loc_Exact
              ltac:(lia) ltac:(lia)) as (m' & e' & He' & Hm' & ->).
  exists m', e'. split; [lia|]. split; [exact Hm'|reflexivity].
Qed.

Lemma div_finite (m1 m2 : positive) (e1 e2 : Z) :
  -52 <= e1 <= 12 -> -85 <= e2 <= 33 -> Z.pos m1 < 2 ^ 53 ->
  SFdiv 53 1024 (S754_finite false m1 e1) (S754_finite false m2 e2) = S754_zero false
  \/ exists m e, SFdiv 53 1024 (S754_finite false m1 e1) (S754_finite false m2 e2)
                 = S754_finite false m e.
Proof.
  intros He1 He2 Hm1. cbn [SFdiv xorb]. unfold SFdiv_core_binary, fexp, emin.
  cbn [Zdigits2].
  set (e' := Z.min (Z.max (Z.pos (digits2_pos m1) + e1 - (Z.pos (digits2_pos m2) + e2) - 53)
                          (3 - 1024 - 53)) (e1 - e2)).
  assert (He' : -1074 <= e' <= e1 - e2) by (unfold e'; lia).
  set (s := e1 - e2 - e').
  assert (Hs : 0 <= s) by (unfold s; lia).
  set (m' := match s with Z.pos _ => Z.shiftl (Z.pos m1) s | 0 => Z.pos m1 | Z.neg _ => 0 end).
  assert (Hm' : 0 <= m' < 2 ^ (53 + s)).
  { pose proof (Z.pow_pos_nonneg 2 s ltac:(lia) Hs) as Hp.
    assert (E : m' = Z.pos m1 * 2 ^ s).
    { unfold m'. destruct s as [|q|q] eqn:Es; [cbn; lia| |lia].
      apply Z.shiftl_mul_pow2. lia. }
    rewrite E, Z.pow_add_r by lia. nia. }
  pose proof (Z_div_mod m' (Z.pos m2) ltac:(lia)) as Hdm.
  destruct (Z.div_eucl m' (Z.pos m2)) as [q r]. destruct Hdm as (Hq & Hr).
  assert (Hq0 : 0 <= q <= m') by nia.
  destruct q as [|pq|pq]; [| |lia].
  - destruct (binary_round_aux_zero false e' (new_location (Z.pos m2) r) ltac:(lia))
      as [H|H]; [left; exact H|right; exact H].
  - right.
    assert (Hd : Z.pos (digits2_pos pq) <= 53 + s) by (apply digits2_le; lia).
    destruct (binary_round_aux_finite false pq e' (new_location (Z.pos m2) r)
                ltac:(lia) ltac:(unfold s in Hd; lia)) as (m & e & _ & _ & ->).
    exists m, e. reflexivity.
Qed.

End Finite.

(** X3: for every packet count and payload size and every simulation time
    from 1 to 2^64 - 1, the reported throughput is +0.0 or a positive
    finite [double]: it is never a NaN, never infinite and never
    negative. *)
Theorem X3_throughput_finite (c P T : Z) :
  0 < T < 2 ^ 64 ->
  throughput c P T = S754_zero false
  \/ exists m e, throughput c P T = S754_finite false m e.
Proof.
  intros HT. unfold throughput.
  pose proof (Z.mod_pos_bound (Uint.mul32 c P * 8) (2 ^ 32) ltac:(lia)) as Hb.
  fold (Uint.wrap 32 (Uint.mul32 c P * 8)) in Hb.
  fold (Uint.mul32 (Uint.mul32 c P) 8) in Hb.
  destruct (Finite.denominator_finite T HT) as (m2 & e2 & He2 & _ & ->).
  destruct (Z.eq_dec (Uint.mul32 (Uint.mul32 c P) 8) 0) as [->|Hn].
  - left. reflexivity.
  - destruct (Finite.of_Z_finite (Uint.mul32 (Uint.mul32 c P) 8) ltac:(lia))
      as (m1 & e1 & He1 & Hm1 & ->).
    apply Finite.div_finite; assumption.
Qed.

Lemma X3_throughput_finite_default :
  throughput 55000 1472 10 = S754_zero false
  \/ exists m e, throughput 55000 1472 10 = S754_finite false m e.
Proof. apply X3_throughput_finite. lia. Defined.

(** ** What the network build leaves behind *)

(** X4: in every configuration exactly three defaults are set: the RTS/CTS
    threshold is "0" when [enableRts] is set and "999999" otherwise, the
    fragmentation threshold is "990000" and the maximum range is 5. *)
Theorem X4_defaults (k : nat) (cfg : Config) :
  let d := defaults (run (network k cfg) initial).2 in
  d !! "ns3::WifiRemoteStationManager::RtsCtsThreshold"
  = Some (StringValue (if enableRts cfg then "0" else "999999")) /\
  d !! "ns3::WifiRemoteStationManager::FragmentationThreshold"
  = Some (StringValue "990000") /\
  d !! "ns3::RangePropagationLossModel::MaxRange" = Some (DoubleValue (Double.of_Z 5)) /\
  size d = 3%nat.
Proof. evaluate cfg; vm_compute; repeat split. Qed.

Lemma network_addresses (k : nat) (cfg : Config) :
  let n := (run (network k cfg) initial).1 in
  StaInterface n ++ ApInterface n
  = [ipv4 192 168 1 1; ipv4 192 168 1 2; ipv4 192 168 1 3; ipv4 192 168 1 4;
     ipv4 192 168 1 5].
Proof. evaluate cfg; vm_compute; reflexivity. Qed.

(** X5: in every configuration the four stations are the nodes 0 to 3 and
    the access point is node 4; each has one device; the stations get the
    addresses 192.168.1.1 to 192.168.1.4 in order and the access point gets
    192.168.1.5; so the five addresses are distinct, lie in 192.168.1.0/24,
    and index 0 is the only index of [ApInterface] that holds an address. *)
Theorem X5_nodes_and_addresses (cfg : Config) :
  let n := (run (network 0 cfg) initial).1 in
  wifiStaNodes n = [0; 1; 2; 3]%nat /\ wifiApNode n = [4%nat] /\
  interfaces n
  = [(0%nat, ipv4 192 168 1 1); (1%nat, ipv4 192 168 1 2); (2%nat, ipv4 192 168 1 3);
     (3%nat, ipv4 192 168 1 4); (4%nat, ipv4 192 168 1 5)] /\
  NoDup (StaInterface n ++ ApInterface n) /\
  Forall (fun a => Z.land a (ipv4 255 255 255 0) = ipv4 192 168 1 0)
         (StaInterface n ++ ApInterface n) /\
  length (ApInterface n) = 1%nat.
Proof.
  intros n. subst n. rewrite (network_addresses 0 cfg).
  split; [evaluate cfg; vm_compute; reflexivity|].
  split; [evaluate cfg; vm_compute; reflexivity|].
  split; [evaluate cfg; vm_compute; reflexivity|].
  split; [apply (bool_decide_unpack _); vm_compute; reflexivity|].
  split; [repeat constructor|].
  evaluate cfg; vm_compute; reflexivity.
Qed.

(** ** hiddenstations3.cc *)

(** X6: in hiddenstations3.cc the command-line parameter [nPackets] has no
    effect: [Config::Set] overwrites the [MaxPackets] of every echo client
    with 3 after the installation, so any two values of [nPackets] build the
    same scenario and the same state, and every flow has a budget of 3. *)
Theorem X6_hidden3_nPackets_overwritten (cfg : Config) (nPackets nPackets' : Z) :
  run (Hidden3.build cfg nPackets) initial = run (Hidden3.build cfg nPackets') initial /\
  uinteger "MaxPackets" <$> flows (run (Hidden3.build cfg nPackets) initial).2
  = [Some 3; Some 3; Some 3; Some 3].
Proof. evaluate cfg; split; vm_compute; reflexivity. Qed.

(** X7: hiddenstations3.cc never works through a missing handle: in every
    configuration each of its eight applications sits on a node (the four
    servers on the access point, one client on each station), every client
    is addressed to the access point, and every device handed to
    [EnablePcap] exists. *)
Theorem X7_hidden3_handles (cfg : Config) (nPackets : Z) :
  let r := run (Hidden3.build cfg nPackets) initial in
  app_node <$> apps r.2
  = [Some 4; Some 4; Some 4; Some 4; Some 0; Some 1; Some 2; Some 3]%nat /\
  wifiApNode (Hidden3.net r.1) = [4%nat] /\
  (fun a => remote_address a ≫= node_of_address (Hidden3.net r.1)) <$> flows r.2
  = [Some 4; Some 4; Some 4; Some 4]%nat /\
  missing_pcap (Hidden3.pcap r.1) = [].
Proof. evaluate cfg; repeat split; vm_compute; reflexivity. Qed.

(** X8: in hiddenstations3.cc the four servers all listen on port 9 of the
    access point while the four flows go to the ports 9, 10, 11 and 12:
    only the first flow is addressed to a port where a server listens. *)
Theorem X8_hidden3_ports (cfg : Config) (nPackets : Z) :
  let r := run (Hidden3.build cfg nPackets) initial in
  (fun a => (app_node a, uinteger "Port" a)) <$> servers r.2
  = replicate 4 (Some 4%nat, Some 9) /\
  uinteger "RemotePort" <$> flows r.2 = [Some 9; Some 10; Some 11; Some 12] /\
  served (Hidden3.net r.1) r.2 <$> flows r.2 = [true; false; false; false].
Proof. evaluate cfg; repeat split; vm_compute; reflexivity. Qed.

Lemma stdout_RxTrace show_size show_ipv4 (l : list Hidden3.Rx) :
  stdout (l ≫= Hidden3.RxTrace show_size show_ipv4)
  = l ≫= (fun r => [Hidden3.rx_context r;
                     "	RxTrace: size = " +:+ show_size (Hidden3.rx_size r)
                     +:+ " From Address: " +:+ show_ipv4 (Hidden3.rx_from r)
                     +:+ " LocalAddress: " +:+ show_ipv4 (Hidden3.rx_local r)]).
Proof.
  induction l as [|r l IH]; [reflexivity|].
  cbn. unfold stdout in IH. cbn in IH. rewrite IH. reflexivity.
Qed.

Lemma length_pairs {A B} (f g : A -> B) (l : list A) :
  length (l ≫= (fun r => [f r; g r])) = (2 * length l)%nat.
Proof. induction l as [|r l IH]; [reflexivity|]. cbn. cbn in IH. rewrite IH. lia. Qed.

(** X9: whatever the simulator traces, hiddenstations3.cc writes exactly
    two lines per firing of the receive trace, in the order of the firings:
    the context, then the size and the two addresses; all of it between the
    start of the run and the destruction of the simulator, after which it
    returns 0. *)
Theorem X9_hidden3_trace_lines (show_size : Z -> string)
    (show_ipv4 : Ipv4Address -> string) (rx : State -> Time -> list Hidden3.Rx)
    (cfg : Config) (nPackets : Z) :
  let o := Hidden3.main show_size show_ipv4 rx cfg nPackets in
  let fired := rx (run (Hidden3.build cfg nPackets) initial).2 (horizon cfg) in
  stdout (events o)
  = fired ≫= (fun r => [Hidden3.rx_context r;
                         "	RxTrace: size = " +:+ show_size (Hidden3.rx_size r)
                         +:+ " From Address: " +:+ show_ipv4 (Hidden3.rx_from r)
                         +:+ " LocalAddress: " +:+ show_ipv4 (Hidden3.rx_local r)]) /\
  length (stdout (events o)) = (2 * length fired)%nat /\
  (exists during, events o = [SimulatorStop (horizon cfg); SimulatorRun]
                             ++ during ++ [SimulatorDestroy]) /\
  exit_status o = Some 0.
Proof.
  intros o fired. subst o fired. rewrite hidden3_main. cbv zeta. cbn [events exit_status].
  assert (E : stdout ([SimulatorStop (horizon cfg); SimulatorRun]
                        ++ (rx (run (Hidden3.build cfg nPackets) initial).2 (horizon cfg)
                              ≫= Hidden3.RxTrace show_size show_ipv4)
                        ++ [SimulatorDestroy])
              = rx (run (Hidden3.build cfg nPackets) initial).2 (horizon cfg)
                ≫= (fun r => [Hidden3.rx_context r;
                     "	RxTrace: size = " +:+ show_size (Hidden3.rx_size r)
                     +:+ " From Address: " +:+ show_ipv4 (Hidden3.rx_from r)
                     +:+ " LocalAddress: " +:+ show_ipv4 (Hidden3.rx_local r)])).
  { unfold stdout. rewrite !omap_app. cbn [omap list_omap app].
    rewrite app_nil_r. apply stdout_RxTrace. }
  split; [exact E|]. split; [rewrite E; apply length_pairs|].
  split; [eexists; reflexivity|reflexivity].
Qed.

(** ** Where the flows lead *)

(** X10: in the first program no flow is addressed to a node on which a
    server listens.  The four saturating flows, one per station, have no
    destination; three echo clients sit on the stations 1, 2 and 3 and are
    each addressed to their own station; the fourth has neither a node nor
    a destination. *)
Theorem X10_simple_destinations (cfg : Config) :
  let r := run (SimpleHt.build cfg) initial in
  (fun a => (app_tid a, app_node a, remote_address a ≫= node_of_address (SimpleHt.net r.1)))
    <$> flows r.2
  = [(UdpClient, Some 0, None); (UdpClient, Some 1, None);
     (UdpClient, Some 2, None); (UdpClient, Some 3, None);
     (UdpEchoClient, Some 1, Some 1); (UdpEchoClient, Some 2, Some 2);
     (UdpEchoClient, Some 3, Some 3); (UdpEchoClient, None, None)]%nat /\
  served (SimpleHt.net r.1) r.2 <$> flows r.2 = replicate 8 false.
Proof. evaluate cfg; split; vm_compute; reflexivity. Qed.

(** X11: in hiddenstations2.cc every station runs four saturating clients,
    sixteen in all, and none of them has a destination: each helper reads
    an index of [ApInterface] at which nothing was assigned.  The four
    servers, all on port 9 of the access point, are addressed by no flow. *)
Theorem X11_hidden2_destinations (cfg : Config) (nPackets : Z) :
  let r := run (Hidden2.build cfg nPackets) initial in
  (fun a => (app_node a, remote_address a)) <$> flows r.2
  = (fun i => (Some i, None)) <$> ([0; 1; 2; 3] ++ [0; 1; 2; 3]
                                    ++ [0; 1; 2; 3] ++ [0; 1; 2; 3])%nat /\
  (fun a => (app_tid a, app_node a, uinteger "Port" a)) <$> servers r.2
  = replicate 4 (UdpServer, Some 4%nat, Some 9) /\
  served (Hidden2.net r.1) r.2 <$> flows r.2 = replicate 16 false.
Proof. evaluate cfg; repeat split; vm_compute; reflexivity. Qed.

(** ** simple-ht-hidden-stations.cc, second program *)

(** X12: in the second program the four echo clients all sit on station 0;
    they are addressed to the stations 1, 2 and 3 and, for the fourth, to
    nothing (index 4 of [StaInterface]); the four echo servers sit on the
    access point, so no flow is addressed to a server and the stations 1, 2
    and 3 run no application at all. *)
Theorem X12_simple2_installation (cfg : Config) :
  let r := run (SimpleHt2.build cfg) initial in
  (fun a => (app_tid a, app_node a, remote_address a ≫= node_of_address (SimpleHt2.net r.1)))
    <$> apps r.2
  = replicate 4 (UdpEchoServer, Some 4%nat, None)
    ++ [(UdpEchoClient, Some 0, Some 1); (UdpEchoClient, Some 0, Some 2);
        (UdpEchoClient, Some 0, Some 3); (UdpEchoClient, Some 0, None)]%nat /\
  GetAddress (StaInterface (SimpleHt2.net r.1)) 4 = None /\
  served (SimpleHt2.net r.1) r.2 <$> flows r.2 = replicate 4 false.
Proof. evaluate cfg; repeat split; vm_compute; reflexivity. Qed.

Lemma simple2_faults (cfg : Config) :
  faults (run (SimpleHt2.build cfg) initial).2
  = [GetAddress_out_of_range 4 4; EnablePcap_on_null "SimpleHtHiddenStations_Sta5"].
Proof. evaluate cfg; vm_compute; reflexivity. Qed.

Lemma simple2_main fmt engine cfg :
  SimpleHt2.main fmt engine cfg = mkOutcome [] None.
Proof.
  unfold SimpleHt2.main. pose proof (simple2_faults cfg) as F.
  destruct (run _ _) as [sc s]. cbn [snd] in F.
  unfold unless_fault. rewrite F. reflexivity.
Qed.

Lemma simple2_casts (cfg : Config) :
  let r := run (SimpleHt2.build cfg) initial in
  (fun c => (c, DynamicCast_UdpServer r.2 (App_Get c 0))) <$> (snd <$> SimpleHt2.blocks r.1)
  = [([0], None); ([1], None); ([2], None); ([3], None)]%nat.
Proof. evaluate cfg; vm_compute; reflexivity. Qed.

(** X13: the second program never prints a throughput either, in any
    configuration.  Its build works through two missing handles: the
    address at index 4 of the four station addresses, and the fifth station
    device handed to [EnablePcap]; so nothing is handed to the simulator and
    [main] does not return.  And its four servers are echo servers, each
    cast to [UdpServer] is null, so the reporting code, given the
    applications the script declares and whatever counters, ends in its
    first block with nothing printed. *)
Theorem X13_simple2_never_reports (fmt : Double.t -> string) (engine : Engine)
    (cfg : Config) :
  let r := run (SimpleHt2.build cfg) initial in
  let o := SimpleHt2.main fmt engine cfg in
  faults r.2
  = [GetAddress_out_of_range 4 4; EnablePcap_on_null "SimpleHtHiddenStations_Sta5"] /\
  app_tid <$> servers r.2 = replicate 4 UdpEchoServer /\
  Forall (fun c => DynamicCast_UdpServer r.2 (App_Get c 0) = None)
         (snd <$> SimpleHt2.blocks r.1) /\
  report fmt cfg r.2 (engine r.2 (horizon cfg)) (SimpleHt2.blocks r.1) = mkOutcome [] None /\
  events o = [] /\
  exit_status o = None.
Proof.
  intros r o.
  pose proof (simple2_casts cfg) as C. cbv zeta in C. fold r in C.
  assert (F : Forall (fun c => DynamicCast_UdpServer r.2 (App_Get c 0) = None)
                     (snd <$> SimpleHt2.blocks r.1)).
  { apply Forall_forall. intros c Hc.
    apply (list_elem_of_fmap_2 (fun c => (c, DynamicCast_UdpServer r.2 (App_Get c 0)))) in Hc.
    rewrite C in Hc.
    repeat (apply elem_of_cons in Hc as [Hc|Hc]; [inversion Hc; congruence|]).
    inversion Hc. }
  split; [apply simple2_faults|].
  split; [subst r; evaluate cfg; vm_compute; reflexivity|].
  split; [exact F|].
  split.
  - unfold SimpleHt2.blocks in *. cbn [fmap list_fmap snd] in F.
    apply Forall_cons in F as (D & _).
    apply (report_null _ _ _ _ _ _ _ D).
  - subst o. rewrite simple2_main. split; reflexivity.
Qed.

(** X14: the station device container holds four devices.  The first
    program enables capture on existing devices only; the second program
    and hiddenstations2.cc also ask for the device at index 4, under the
    name [SimpleHtHiddenStations_Sta5], and that device does not exist. *)
Theorem X14_pcap_devices (cfg : Config) (nPackets : Z) :
  length (staDevices (run (network 0 cfg) initial).1) = 4%nat /\
  missing_pcap (SimpleHt.pcap (run (SimpleHt.build cfg) initial).1) = [] /\
  missing_pcap (SimpleHt2.pcap (run (SimpleHt2.build cfg) initial).1)
  = ["SimpleHtHiddenStations_Sta5"] /\
  missing_pcap (Hidden2.pcap (run (Hidden2.build cfg nPackets) initial).1)
  = ["SimpleHtHiddenStations_Sta5"].
Proof. evaluate cfg; repeat split; vm_compute; reflexivity. Qed.

(** ** The shortest simulation time each program supports *)

Lemma simple2_schedule (cfg : Config) :
  schedule (run (SimpleHt2.build cfg) initial).2
  = (let stop := Seconds (Uint.add64 (simulationTime cfg) 1) in
     replicate 4 (UdpEchoServer, Some 4%nat, Seconds 0, stop)
     ++ replicate 4 (UdpEchoClient, Some 0%nat, Seconds 1, stop)).
Proof. evaluate cfg; vm_compute; reflexivity. Qed.

Lemma windows_schedule (cfg : Config) (s : State) :
  windows_ok cfg s <->
  Forall (fun '(tid, _, start, stop) =>
            tid = UdpClient \/ tid = UdpEchoClient ->
            start < stop /\ stop <= horizon cfg)
         (schedule s).
Proof.
  unfold windows_ok, flows, schedule. induction (apps s) as [|a l IH].
  - split; constructor.
  - rewrite fmap_cons, Forall_cons, <- IH.
    destruct (decide (is_client a = true)) as [Hc|Hc].
    + rewrite filter_cons_True by exact Hc. rewrite Forall_cons.
      unfold is_client in Hc.
      split; intros (H1 & H2); (split; [|exact H2]).
      * intros _. exact H1.
      * apply H1. destruct (app_tid a); auto; discriminate.
    + rewrite filter_cons_False by exact Hc.
      unfold is_client in Hc.
      split; [intros H; split; [|exact H]|intros (_ & H); exact H].
      intros [E|E]; rewrite E in Hc; contradiction.
Qed.

Ltac thresholds :=
  cbv zeta; cbn [replicate fmap list_fmap app];
  repeat rewrite Forall_cons; rewrite Forall_nil;
  unfold Seconds in *;
  split;
  [ intros H; decompose [and] H; clear H;
    repeat match goal with
           | H : ?tid = UdpClient \/ ?tid = UdpEchoClient -> _ |- _ =>
               first [ specialize (H (or_introl eq_refl))
                     | specialize (H (or_intror eq_refl))
                     | clear H ]
           end; lia
  | intros H; repeat split; try lia;
    match goal with H : _ \/ _ |- _ => destruct H; discriminate end ].

(** X15: with a simulation time between 0 and 9223372035 (so that the
    horizon fits the clock), every flow of a program starts before it stops
    and stops by the horizon exactly when the simulation time is at least
    9 s for the first program (its echo clients stop at the literal 10 s),
    at least 4 s for hiddenstations3.cc (its last client starts at 4 s),
    and at least 1 s for the second program and hiddenstations2.cc. *)
Theorem X15_shortest_simulation_time (cfg : Config) (nPackets : Z) :
  0 <= simulationTime cfg -> representable cfg ->
  (windows_ok cfg (run (SimpleHt.build cfg) initial).2 <-> 9 <= simulationTime cfg) /\
  (windows_ok cfg (run (SimpleHt2.build cfg) initial).2 <-> 1 <= simulationTime cfg) /\
  (windows_ok cfg (run (Hidden2.build cfg nPackets) initial).2 <-> 1 <= simulationTime cfg) /\
  (windows_ok cfg (run (Hidden3.build cfg nPackets) initial).2 <-> 4 <= simulationTime cfg).
Proof.
  intros H0 Hr. unfold representable in Hr.
  assert (Hh : horizon cfg = (simulationTime cfg + 1) * 1000000000).
  { unfold horizon, Seconds, Uint.add64, Uint.wrap. rewrite Z.mod_small; lia. }
  assert (Hs : Seconds (Uint.add64 (simulationTime cfg) 1) = horizon cfg) by reflexivity.
  rewrite !windows_schedule.
  rewrite simple_schedule, simple2_schedule, hidden2_schedule, hidden3_schedule.
  cbv zeta. rewrite Hs. generalize dependent (horizon cfg). intros h Hh.
  split; [|split; [|split]]; thresholds.
Qed.

Lemma X15_shortest_simulation_time_default :
  windows_ok default_config (run (SimpleHt.build default_config) initial).2 /\
  windows_ok default_config (run (Hidden3.build default_config 0) initial).2.
Proof.
  assert (H0 : 0 <= simulationTime default_config) by (vm_compute; congruence).
  assert (Hr : representable default_config) by (vm_compute; congruence).
  destruct (X15_shortest_simulation_time default_config 0 H0 Hr) as (H1 & _ & _ & H4).
  split; [apply H1|apply H4]; vm_compute; congruence.
Defined.

(** ** Which programs reach the simulator *)

(** X16: in every configuration the builds of the first program, of the
    second program and of hiddenstations2.cc work through missing handles,
    at the calls listed here in program order, so that these programs hand
    nothing to the simulator, print nothing and do not return; the build of
    hiddenstations3.cc works through none, and that program alone runs the
    simulator. *)
Theorem X16_calls_through_missing_handles (fmt : Double.t -> string) (engine : Engine)
    (show_size : Z -> string) (show_ipv4 : Ipv4Address -> string)
    (rx : State -> Time -> list Hidden3.Rx) (cfg : Config) (nPackets : Z) :
  faults (run (SimpleHt.build cfg) initial).2
  = [GetAddress_out_of_range 1 1;
     Install_on_null UdpEchoServer; Install_on_null UdpEchoServer;
     Install_on_null UdpEchoServer; Install_on_null UdpEchoServer;
     GetAddress_out_of_range 4 4; Install_on_null UdpEchoClient] /\
  faults (run (SimpleHt2.build cfg) initial).2
  = [GetAddress_out_of_range 4 4; EnablePcap_on_null "SimpleHtHiddenStations_Sta5"] /\
  faults (run (Hidden2.build cfg nPackets) initial).2
  = [GetAddress_out_of_range 1 1; GetAddress_out_of_range 2 1;
     GetAddress_out_of_range 3 1; GetAddress_out_of_range 4 1;
     EnablePcap_on_null "SimpleHtHiddenStations_Sta5"] /\
  faults (run (Hidden3.build cfg nPackets) initial).2 = [] /\
  SimpleHt.main fmt engine cfg = mkOutcome [] None /\
  SimpleHt2.main fmt engine cfg = mkOutcome [] None /\
  Hidden2.main fmt engine cfg nPackets = mkOutcome [] None /\
  SimulatorRun ∈ events (Hidden3.main show_size show_ipv4 rx cfg nPackets).
Proof.
  rewrite simple_main, simple2_main, hidden2_main, hidden3_main.
  repeat split;
    auto using simple_faults, simple2_faults, hidden2_faults, hidden3_faults.
  cbv zeta. cbn [events app]. apply list_elem_of_further, list_elem_of_here.
Qed.
